(** * PicoClaw streaming chat orchestrator: provider adapters, registry,
      dispatcher and transport bindings.

    The Go sources embedded here are
    - [pkg/providers/ollama.go]        (package [providers]),
    - [pkg/providers/ollama/ollama.go] (package [ollama]),
    - the web UI server [package main] (handlers [handleChat],
      [handleWebSocket], [initializeProviders], the [ProviderWrapper]).

    A function returning [(T, error)] returns a [Result T]; a channel is the
    list of values sent on it before it is closed; the network is the
    [Transport] function of an [http.Client], and every call made through it
    is recorded in a trace. *)

From stdpp Require Import gmap strings list pretty.

Open Scope Z_scope.

(** ** Go errors *)

(** [io.EOF] is a sentinel compared by identity ([err == io.EOF]); every
    other error is known by its message. *)
Inductive error : Type :=
  | io_EOF
  | errorString (msg : string).

Definition Error (e : error) : string :=
  match e with
  | io_EOF => "EOF"
  | errorString msg => msg
  end.

(** [fmt.Errorf(prefix + "%w", err)]: a fresh error, never [io.EOF] itself. *)
Definition fmt_Errorf_w (prefix : string) (err : error) : error :=
  errorString (prefix +:+ Error err).

#[global] Instance error_eq_dec : EqDecision error.
Proof. solve_decision. Defined.

Inductive Result (A : Type) : Type :=
  | Ok (a : A)
  | Err (err : error).
Arguments Ok {A} a.
Arguments Err {A} err.

(** ** Contexts *)

Inductive Context : Type :=
  | Background
  | WithTimeout (parent : Context) (timeout : Z)
  | RequestContext.

Definition Second : Z := 1000000000.

(** ** JSON objects on the wire

    A struct with [json] tags is identified with the JSON object it is
    marshalled to.  Both packages declare these three structs, as
    [Message]/[ChatRequest]/[ChatResponse] in [ollama] and as
    [OllamaMessage]/[OllamaRequest]/[OllamaResponse] in [providers]. *)
Module wire.

Record Message : Type := {
  Role : string;
  Content : string
}.

Record ChatRequest : Type := {
  Model : string;
  Messages : list Message;
  Stream : bool
}.

Record ChatResponse : Type := {
  RModel : string;
  CreatedAt : Z;
  RMessage : Message;
  Done : bool
}.

End wire.

(** ** net/http *)
Module http.

Definition MethodGet : string := "GET".
Definition MethodPost : string := "POST".
Definition StatusOK : Z := 200.
Definition StatusBadRequest : Z := 400.
Definition StatusInternalServerError : Z := 500.

Record Request : Type := {
  ctx : Context;
  Method : string;
  URL : string;
  Header : list (string * string);
  ReqBody : option wire.ChatRequest
}.

(** A response body, by what its readers get out of it: [io.ReadAll]
    returns [Bytes]; the successive [Decode] calls of a [json.Decoder] into
    a chat response return the elements of [ChatValues] and, once these are
    used up, [io.EOF]; decoding the body of [/api/tags] gives [Tags]
    (the names of the listed models). *)
Record Body : Type := {
  Bytes : string;
  ChatValues : list (Result wire.ChatResponse);
  Tags : Result (list string)
}.

Record Response : Type := {
  StatusCode : Z;
  RespBody : Body
}.

(** [http.Client{Timeout: t}] sends through the default transport: the
    network. *)
Record Client : Type := {
  Timeout : Z;
  Transport : Request → Result Response
}.

(** Everything sent upstream, oldest first, next to the value computed. *)
Definition Net (A : Type) : Type := (list Request * A)%type.

Definition ret {A} (a : A) : Net A := ([], a).

Definition bind {A B} (m : Net A) (k : A → Net B) : Net B :=
  let '(t1, a) := m in
  let '(t2, b) := k a in
  (t1 ++ t2, b).

Definition Do (c : Client) (req : Request) : Net (Result Response) :=
  ([req], Transport c req).

Definition Header_Set (req : Request) (key value : string) : Request :=
  {| ctx := ctx req; Method := Method req; URL := URL req;
     Header := (key, value) :: Header req; ReqBody := ReqBody req |}.

(** One [Decode] call on a decoder positioned before [values]. *)
Definition Decode {A} (values : list (Result A)) : Result A :=
  match values with
  | [] => Err io_EOF
  | v :: _ => v
  end.

Section NewRequest.
(** [net/url]: the error [url.Parse] reports for a target, if any. *)
Variable url_error : string → option error.

Definition NewRequestWithContext (c : Context) (method url : string)
    (body : option wire.ChatRequest) : Result Request :=
  match url_error url with
  | Some err => Err err
  | None =>
      Ok {| ctx := c; Method := method; URL := url; Header := [];
            ReqBody := body |}
  end.
End NewRequest.

End http.

#[global] Instance Net_ret : MRet http.Net := @http.ret.
#[global] Instance Net_bind : MBind http.Net := λ A B k m, http.bind m k.

(** ** package providers (pkg/providers) *)
Module providers.

Definition DefaultOllamaBaseURL : string := "http://localhost:11434".
Definition DefaultOllamaModel : string := "llama3.2".

Record Message : Type := {
  Message_Role : string;
  Message_Content : string
}.

(** The types of this block are declared in files of the package that are
    not at hand; their fields are those the code at hand reads and writes. *)
Record UsageInfo : Type := {
  PromptTokens : Z;
  CompletionTokens : Z;
  TotalTokens : Z
}.

Record Usage : Type := {
  Usage_PromptTokens : Z;
  Usage_CompletionTokens : Z;
  Usage_TotalTokens : Z
}.

Record LLMResponse : Type := {
  LLMResponse_Content : string;
  LLMResponse_FinishReason : string;
  LLMResponse_Usage : UsageInfo
}.

(** The request, response and chunk types the [ollama] package is written
    against. *)
Record ChatRequest : Type := {
  ChatRequest_Messages : list Message
}.

Record ChatResponse : Type := {
  ChatResponse_Content : string;
  ChatResponse_FinishReason : string;
  ChatResponse_Usage : Usage
}.

Record StreamChunk : Type := {
  StreamChunk_Content : string;
  StreamChunk_Done : bool;
  StreamChunk_Error : option error
}.

(** The interface [LLMProvider], as far as the server calls it.  The
    [tools] and [options] arguments of [Chat], which [OllamaProvider.Chat]
    never reads and [ProviderWrapper.StreamChat] passes as [nil], are left
    out. *)
Record LLMProvider : Type := {
  LLMProvider_Chat : Context → list Message → string → Result LLMResponse;
  LLMProvider_GetDefaultModel : string;
  LLMProvider_ListModels : option (Context → Result (list string))
}.

Record OllamaConfig : Type := {
  BaseURL : string;
  Model : string;
  Timeout : Z
}.

Record OllamaProvider : Type := {
  config : OllamaConfig;
  httpClient : http.Client
}.

Section Ollama.
Variable url_error : string → option error.
Variable transport : http.Request → Result http.Response.

Definition Chat (p : OllamaProvider) (ctx : Context)
    (messages : list Message) (model : string) : http.Net (Result LLMResponse) :=
  if decide (length messages = 0%nat) then
    mret (Err (errorString "no messages provided"))
  else
    let ollamaMessages :=
      map (λ msg, {| wire.Role := Message_Role msg;
                     wire.Content := Message_Content msg |}) messages in
    let model := if decide (model = "") then Model (config p) else model in
    let ollamaReq :=
      {| wire.Model := model; wire.Messages := ollamaMessages;
         wire.Stream := false |} in
    let url := BaseURL (config p) +:+ "/api/chat" in
    match http.NewRequestWithContext url_error ctx http.MethodPost url
            (Some ollamaReq) with
    | Err err => mret (Err (fmt_Errorf_w "failed to create request: " err))
    | Ok req =>
        let req := http.Header_Set req "Content-Type" "application/json" in
        r ← http.Do (httpClient p) req;
        match r with
        | Err err => mret (Err (fmt_Errorf_w "failed to send request: " err))
        | Ok resp =>
            if decide (http.StatusCode resp ≠ http.StatusOK) then
              let body := http.Bytes (http.RespBody resp) in
              mret (Err (errorString
                ("ollama returned status " +:+ pretty (http.StatusCode resp)
                   +:+ ": " +:+ body)))
            else
              match http.Decode (http.ChatValues (http.RespBody resp)) with
              | Err err =>
                  mret (Err (fmt_Errorf_w "failed to decode response: " err))
              | Ok ollamaResp =>
                  mret (Ok
                    {| LLMResponse_Content :=
                         wire.Content (wire.RMessage ollamaResp);
                       LLMResponse_FinishReason := "stop";
                       LLMResponse_Usage :=
                         {| PromptTokens := 0; CompletionTokens := 0;
                            TotalTokens := 0 |} |})
              end
        end
    end.

Definition GetDefaultModel (p : OllamaProvider) : string :=
  Model (config p).

Definition ListModels (p : OllamaProvider) (ctx : Context)
    : http.Net (Result (list string)) :=
  let url := BaseURL (config p) +:+ "/api/tags" in
  match http.NewRequestWithContext url_error ctx http.MethodGet url None with
  | Err err => mret (Err (fmt_Errorf_w "failed to create request: " err))
  | Ok req =>
      r ← http.Do (httpClient p) req;
      match r with
      | Err err => mret (Err (fmt_Errorf_w "failed to send request: " err))
      | Ok resp =>
          if decide (http.StatusCode resp ≠ http.StatusOK) then
            mret (Err (errorString
              ("ollama returned status " +:+ pretty (http.StatusCode resp))))
          else
            match http.Tags (http.RespBody resp) with
            | Err err =>
                mret (Err (fmt_Errorf_w "failed to decode response: " err))
            | Ok models => mret (Ok models)
            end
      end
  end.

(** [*OllamaProvider] as an [LLMProvider]; its method set also has
    [ListModels], which [initializeProviders] finds by a type
    assertion. *)
Definition asLLMProvider (p : OllamaProvider) : LLMProvider :=
  {| LLMProvider_Chat c messages model := (Chat p c messages model).2;
     LLMProvider_GetDefaultModel := GetDefaultModel p;
     LLMProvider_ListModels := Some (λ c, (ListModels p c).2) |}.

Definition CreateOllamaProvider (baseURL : string) : Result LLMProvider :=
  let config :=
    {| BaseURL := baseURL; Model := DefaultOllamaModel;
       Timeout := 120 * Second |} in
  let config :=
    if decide (BaseURL config = "")
    then {| BaseURL := DefaultOllamaBaseURL; Model := Model config;
            Timeout := Timeout config |}
    else config in
  Ok (asLLMProvider
        {| config := config;
           httpClient := {| http.Timeout := Timeout config;
                            http.Transport := transport |} |}).
End Ollama.

End providers.

(** ** package ollama (pkg/providers/ollama) *)
Module ollama.

Definition defaultBaseURL : string := "http://localhost:11434".
Definition defaultModel : string := "llama3.2".
Definition defaultTimeout : Z := 120 * Second.

Record Config : Type := {
  BaseURL : string;
  Model : string;
  Timeout : Z
}.

Record Provider : Type := {
  config : Config;
  httpClient : http.Client
}.

Definition Name (p : Provider) : string := "ollama".

(** The goroutine of [StreamChat]: what it sends on [chunkChan] before the
    deferred [close], reading a decoder positioned before [values]. *)
Fixpoint decodeLoop (values : list (Result wire.ChatResponse))
    : list providers.StreamChunk :=
  match values with
  | [] => []
  | Err err :: _ =>
      if decide (err = io_EOF) then []
      else
        [ {| providers.StreamChunk_Content := "";
             providers.StreamChunk_Done := false;
             providers.StreamChunk_Error :=
               Some (fmt_Errorf_w "decode error: " err) |} ]
  | Ok ollamaResp :: values' =>
      if wire.Done ollamaResp then
        [ {| providers.StreamChunk_Content := "";
             providers.StreamChunk_Done := true;
             providers.StreamChunk_Error := None |} ]
      else
        {| providers.StreamChunk_Content :=
             wire.Content (wire.RMessage ollamaResp);
           providers.StreamChunk_Done := false;
           providers.StreamChunk_Error := None |}
        :: decodeLoop values'
  end.

Section Provider.
Variable url_error : string → option error.
Variable transport : http.Request → Result http.Response.

Definition New (config : Config) : Result Provider :=
  let config :=
    if decide (BaseURL config = "")
    then {| BaseURL := defaultBaseURL; Model := Model config;
            Timeout := Timeout config |}
    else config in
  let config :=
    if decide (Model config = "")
    then {| BaseURL := BaseURL config; Model := defaultModel;
            Timeout := Timeout config |}
    else config in
  let config :=
    if decide (Timeout config = 0)
    then {| BaseURL := BaseURL config; Model := Model config;
            Timeout := defaultTimeout |}
    else config in
  Ok {| config := config;
        httpClient := {| http.Timeout := Timeout config;
                         http.Transport := transport |} |}.

Definition Chat (p : Provider) (ctx : Context) (req : providers.ChatRequest)
    : http.Net (Result providers.ChatResponse) :=
  if decide (length (providers.ChatRequest_Messages req) = 0%nat) then
    mret (Err (errorString "no messages provided"))
  else
    let messages :=
      map (λ msg, {| wire.Role := providers.Message_Role msg;
                     wire.Content := providers.Message_Content msg |})
          (providers.ChatRequest_Messages req) in
    let ollamaReq :=
      {| wire.Model := Model (config p); wire.Messages := messages;
         wire.Stream := false |} in
    let url := BaseURL (config p) +:+ "/api/chat" in
    match http.NewRequestWithContext url_error ctx http.MethodPost url
            (Some ollamaReq) with
    | Err err => mret (Err (fmt_Errorf_w "failed to create request: " err))
    | Ok httpReq =>
        let httpReq :=
          http.Header_Set httpReq "Content-Type" "application/json" in
        r ← http.Do (httpClient p) httpReq;
        match r with
        | Err err => mret (Err (fmt_Errorf_w "failed to send request: " err))
        | Ok resp =>
            if decide (http.StatusCode resp ≠ http.StatusOK) then
              let body := http.Bytes (http.RespBody resp) in
              mret (Err (errorString
                ("ollama returned status " +:+ pretty (http.StatusCode resp)
                   +:+ ": " +:+ body)))
            else
              match http.Decode (http.ChatValues (http.RespBody resp)) with
              | Err err =>
                  mret (Err (fmt_Errorf_w "failed to decode response: " err))
              | Ok ollamaResp =>
                  mret (Ok
                    {| providers.ChatResponse_Content :=
                         wire.Content (wire.RMessage ollamaResp);
                       providers.ChatResponse_FinishReason := "stop";
                       providers.ChatResponse_Usage :=
                         {| providers.Usage_PromptTokens := 0;
                            providers.Usage_CompletionTokens := 0;
                            providers.Usage_TotalTokens := 0 |} |})
              end
        end
    end.

(** The channel returned on success is given by the chunks sent on it
    before it is closed. *)
Definition StreamChat (p : Provider) (ctx : Context)
    (req : providers.ChatRequest)
    : http.Net (Result (list providers.StreamChunk)) :=
  if decide (length (providers.ChatRequest_Messages req) = 0%nat) then
    mret (Err (errorString "no messages provided"))
  else
    let messages :=
      map (λ msg, {| wire.Role := providers.Message_Role msg;
                     wire.Content := providers.Message_Content msg |})
          (providers.ChatRequest_Messages req) in
    let ollamaReq :=
      {| wire.Model := Model (config p); wire.Messages := messages;
         wire.Stream := true |} in
    let url := BaseURL (config p) +:+ "/api/chat" in
    match http.NewRequestWithContext url_error ctx http.MethodPost url
            (Some ollamaReq) with
    | Err err => mret (Err (fmt_Errorf_w "failed to create request: " err))
    | Ok httpReq =>
        let httpReq :=
          http.Header_Set httpReq "Content-Type" "application/json" in
        r ← http.Do (httpClient p) httpReq;
        match r with
        | Err err => mret (Err (fmt_Errorf_w "failed to send request: " err))
        | Ok resp =>
            if decide (http.StatusCode resp ≠ http.StatusOK) then
              let body := http.Bytes (http.RespBody resp) in
              mret (Err (errorString
                ("ollama returned status " +:+ pretty (http.StatusCode resp)
                   +:+ ": " +:+ body)))
            else
              mret (Ok (decodeLoop (http.ChatValues (http.RespBody resp))))
        end
    end.
Definition ListModels (p : Provider) (ctx : Context)
    : http.Net (Result (list string)) :=
  let url := BaseURL (config p) +:+ "/api/tags" in
  match http.NewRequestWithContext url_error ctx http.MethodGet url None with
  | Err err => mret (Err (fmt_Errorf_w "failed to create request: " err))
  | Ok req =>
      r ← http.Do (httpClient p) req;
      match r with
      | Err err => mret (Err (fmt_Errorf_w "failed to send request: " err))
      | Ok resp =>
          if decide (http.StatusCode resp ≠ http.StatusOK) then
            mret (Err (errorString
              ("ollama returned status " +:+ pretty (http.StatusCode resp))))
          else
            match http.Tags (http.RespBody resp) with
            | Err err =>
                mret (Err (fmt_Errorf_w "failed to decode response: " err))
            | Ok models => mret (Ok models)
            end
      end
  end.
End Provider.

End ollama.

(** ** package session (pkg/session) *)
Module session.

(** Modelled from the spec: the session store [session.SessionManager]
    ([NewSessionManager], [GetHistory], [AddMessage], [Save], [Delete]),
    whose source is not part of the repository files at hand.  The spec
    gives it an in-memory sequence of Messages per key and a durable copy
    per key: [history] returns the in-memory sequence, empty for an unseen
    key; [append] adds one Message to it; [persist] writes the current
    in-memory sequence to durable storage as one unit and may fail;
    [delete] removes both and tells whether anything was removed.  Message
    timestamps and the naming of the files are left out. *)
Record SessionManager : Type := {
  sessions : gmap string (list providers.Message);
  storage : gmap string (list providers.Message);
  writable : bool
}.

(** Modelled from the spec: a store (re)started on a durable state holds
    what was persisted. *)
Definition NewSessionManager (durable : gmap string (list providers.Message))
    (writable : bool) : SessionManager :=
  {| sessions := durable; storage := durable; writable := writable |}.

(** Modelled from the spec: [history(key)]. *)
Definition GetHistory (sm : SessionManager) (key : string)
    : list providers.Message :=
  default [] (sessions sm !! key).

(** Modelled from the spec: [append(key, role, content)]. *)
Definition AddMessage (key role content : string) (sm : SessionManager)
    : SessionManager :=
  {| sessions :=
       <[key := GetHistory sm key ++
                [ {| providers.Message_Role := role;
                     providers.Message_Content := content |} ]]>
         (sessions sm);
     storage := storage sm;
     writable := writable sm |}.

(** Modelled from the spec: [persist(key)]. *)
Definition Save (key : string) (sm : SessionManager)
    : option error * SessionManager :=
  if writable sm then
    (None,
     {| sessions := sessions sm;
        storage := <[key := GetHistory sm key]> (storage sm);
        writable := writable sm |})
  else (Some (errorString "session storage not writable"), sm).

(** Modelled from the spec: [delete(key)]. *)
Definition Delete (key : string) (sm : SessionManager)
    : bool * SessionManager :=
  (bool_decide (is_Some (sessions sm !! key) ∨ is_Some (storage sm !! key)),
   {| sessions := delete key (sessions sm);
      storage := delete key (storage sm);
      writable := writable sm |}).

End session.

(** ** package main (the web UI server) *)
Module webui.

Record ChatMessage : Type := {
  ChatMessage_Role : string;
  ChatMessage_Content : string;
  ChatMessage_Timestamp : Z
}.

Record ChatRequest : Type := {
  Messages : list ChatMessage;
  Provider : string;
  Model : string;
  SystemPrompt : string;
  SessionKey : string
}.

(** [Error] is tagged [omitempty]. *)
Record ChatResponse : Type := {
  ChatResponse_Content : string;
  ChatResponse_Done : bool;
  ChatResponse_Error : string
}.

Record ProviderWrapper : Type := {
  name : string;
  provider : providers.LLMProvider;
  listModelsFn : option (Context → Result (list string))
}.

Record StreamChatRequest : Type := {
  StreamChatRequest_Messages : list providers.Message;
  StreamChatRequest_Model : string
}.

Record StreamChunk : Type := {
  StreamChunk_Content : string;
  StreamChunk_Done : bool;
  StreamChunk_Error : option error
}.

Definition Name (p : ProviderWrapper) : string := name p.

Definition Chat (p : ProviderWrapper) (ctx : Context)
    (messages : list providers.Message) (model : string)
    : Result providers.LLMResponse :=
  providers.LLMProvider_Chat (provider p) ctx messages model.

(** The error result is always [nil]; the channel is given by the chunks
    the goroutine sends before the deferred [close]. *)
Definition StreamChat (p : ProviderWrapper) (ctx : Context)
    (req : StreamChatRequest) : Result (list StreamChunk) :=
  let messages := StreamChatRequest_Messages req in
  Ok match providers.LLMProvider_Chat (provider p) ctx messages
             (StreamChatRequest_Model req) with
     | Err err =>
         [ {| StreamChunk_Content := ""; StreamChunk_Done := false;
              StreamChunk_Error := Some err |} ]
     | Ok resp =>
         [ {| StreamChunk_Content := providers.LLMResponse_Content resp;
              StreamChunk_Done := true;
              StreamChunk_Error := None |} ]
     end.

Definition GetDefaultModel (p : ProviderWrapper) : string :=
  providers.LLMProvider_GetDefaultModel (provider p).

Definition ListModels (p : ProviderWrapper) (ctx : Context)
    : Result (list string) :=
  match listModelsFn p with
  | Some f => f ctx
  | None => Ok [GetDefaultModel p]
  end.

(** [cfg.Providers.VLLM.APIBase] is all the server reads of its
    configuration here. *)
Record Config : Type := {
  Providers_VLLM_APIBase : string
}.

(** The package variables the handlers work on. *)
Record Globals : Type := {
  cfg : Config;
  sessions : session.SessionManager;
  providerMap : gmap string ProviderWrapper
}.

Definition set_sessions (g : Globals) (sm : session.SessionManager) : Globals :=
  {| cfg := cfg g; sessions := sm; providerMap := providerMap g |}.

Section Startup.
Variable url_error : string → option error.
Variable transport : http.Request → Result http.Response.

(** Log output is not modelled. *)
Definition initializeProviders (g : Globals) : Globals :=
  let ollamaBaseURL :=
    if decide (Providers_VLLM_APIBase (cfg g) ≠ "")
    then Providers_VLLM_APIBase (cfg g)
    else "http://localhost:11434" in
  match providers.CreateOllamaProvider url_error transport ollamaBaseURL with
  | Ok ollamaProvider =>
      let ctx := WithTimeout Background (2 * Second) in
      match providers.LLMProvider_ListModels ollamaProvider with
      | Some ollamaLister =>
          let models :=
            match ollamaLister ctx with
            | Ok models => models
            | Err _ => []
            end in
          if decide (0 < length models)%nat then
            let wrapper :=
              {| name := "ollama"; provider := ollamaProvider;
                 listModelsFn := Some ollamaLister |} in
            {| cfg := cfg g; sessions := sessions g;
               providerMap := <["ollama" := wrapper]> (providerMap g) |}
          else g
      | None => g
      end
  | Err _ => g
  end.
End Startup.

(** The order in which Go ranges over a map is unspecified; the keys come
    here in the order of the finite map. *)
Definition getAvailableProviders (g : Globals) : list string :=
  (map_to_list (providerMap g)).*1.

Definition getProvider (g : Globals) (name : string) : option ProviderWrapper :=
  providerMap g !! name.

(** The loop of [getDefaultProvider] over its priority list. *)
Fixpoint firstRegistered (priority : list string)
    (m : gmap string ProviderWrapper) : option ProviderWrapper :=
  match priority with
  | [] => None
  | name :: priority' =>
      match m !! name with
      | Some p => Some p
      | None => firstRegistered priority' m
      end
  end.

Definition getDefaultProvider (g : Globals) : option ProviderWrapper :=
  let priority := ["ollama"] in
  firstRegistered priority (providerMap g).

(** *** Model listing *)

Record ModelsResponse : Type := {
  ModelsResponse_Provider : string;
  ModelsResponse_Models : list string
}.

(** What [handleModels] leaves on the response: one [http.Error], or the
    JSON encoding of [result]. *)
Inductive ModelsReply : Type :=
  | ModelsError (msg : string) (code : Z)
  | ModelsJSON (result : list ModelsResponse).

(** [query] is [r.URL.Query().Get("provider")].  The loop over
    [providerMap] visits the entries in the order of the finite map. *)
Definition handleModels (g : Globals) (query : string) : ModelsReply :=
  let providerName := if decide (query = "") then "all" else query in
  if decide (providerName = "all") then
    ModelsJSON
      (map (λ '(name, p),
              let models :=
                match ListModels p Background with
                | Ok models => models
                | Err _ => ["default"]
                end in
              {| ModelsResponse_Provider := name;
                 ModelsResponse_Models := models |})
           (map_to_list (providerMap g)))
  else
    match getProvider g providerName with
    | None => ModelsError "Provider not found" 404
    | Some provider =>
        let models :=
          match ListModels provider Background with
          | Ok models => models
          | Err _ => ["default"]
          end in
        ModelsJSON [ {| ModelsResponse_Provider := providerName;
                        ModelsResponse_Models := models |} ]
    end.

(** *** The event-stream binding *)

(** An incoming HTTP request: its method and what [json.Decode] makes of
    its body. *)
Record Request : Type := {
  Request_Method : string;
  Request_Body : Result ChatRequest
}.

(** Whether the [http.ResponseWriter] at hand is an [http.Flusher]. *)
Record ResponseWriter : Type := {
  isFlusher : bool
}.

(** One frame of the event stream: a [data:] line holding the JSON of a
    [ChatResponse], or the [data:] line the handler formats by hand around
    an error message. *)
Inductive SSEFrame : Type :=
  | DataJSON (response : ChatResponse)
  | DataError (msg : string).

(** What a handler leaves on the response: one [http.Error], or the frames
    it flushed. *)
Inductive Reply : Type :=
  | HttpError (msg : string) (code : Z)
  | EventStream (frames : list SSEFrame).

(** The loop over [req.Messages], shared word for word by both
    handlers. *)
Fixpoint appendMessages (sessionKey : string) (msgs : list ChatMessage)
    (history : list providers.Message) (sm : session.SessionManager)
    : list providers.Message * session.SessionManager :=
  match msgs with
  | [] => (history, sm)
  | msg :: msgs' =>
      appendMessages sessionKey msgs'
        (history ++ [ {| providers.Message_Role := ChatMessage_Role msg;
                         providers.Message_Content := ChatMessage_Content msg |} ])
        (session.AddMessage sessionKey (ChatMessage_Role msg)
           (ChatMessage_Content msg) sm)
  end.

(** The loop [for chunk := range chunkChan] of [handleChat]. *)
Fixpoint chatLoop (sessionKey : string) (chunks : list StreamChunk)
    (fullResponse : string) (sm : session.SessionManager)
    : session.SessionManager * list SSEFrame :=
  match chunks with
  | [] => (sm, [])
  | chunk :: chunks' =>
      match StreamChunk_Error chunk with
      | Some err => (sm, [DataError (Error err)])
      | None =>
          let response :=
            {| ChatResponse_Content := StreamChunk_Content chunk;
               ChatResponse_Done := StreamChunk_Done chunk;
               ChatResponse_Error := "" |} in
          let fullResponse := fullResponse +:+ StreamChunk_Content chunk in
          if StreamChunk_Done chunk then
            (if decide (fullResponse ≠ "") then
               (session.Save sessionKey
                  (session.AddMessage sessionKey "assistant" fullResponse sm)).2
             else sm,
             [DataJSON response])
          else
            let '(sm', frames) := chatLoop sessionKey chunks' fullResponse sm in
            (sm', DataJSON response :: frames)
      end
  end.

(** [now] is [strconv.FormatInt(time.Now().UnixNano(), 36)] at the time of
    the call. *)
Definition handleChat (g : Globals) (now : string) (w : ResponseWriter)
    (r : Request) : Globals * Reply :=
  if decide (Request_Method r ≠ http.MethodPost) then
    (g, HttpError "Method not allowed" 405)
  else
    match Request_Body r with
    | Err _ => (g, HttpError "Invalid request" http.StatusBadRequest)
    | Ok req =>
        let sessionKey :=
          if decide (SessionKey req = "") then "webui:" +:+ now
          else SessionKey req in
        let providerName :=
          if decide (Provider req = "") then
            match getDefaultProvider g with
            | Some p => Name p
            | None => Provider req
            end
          else Provider req in
        match getProvider g providerName with
        | None =>
            (g, HttpError ("Provider '" +:+ providerName +:+ "' not available")
                  http.StatusBadRequest)
        | Some provider =>
            let history := session.GetHistory (sessions g) sessionKey in
            let '(history, sm) :=
              appendMessages sessionKey (Messages req) history (sessions g) in
            let history :=
              if decide (SystemPrompt req ≠ "") then
                {| providers.Message_Role := "system";
                   providers.Message_Content := SystemPrompt req |} :: history
              else history in
            let model :=
              if decide (Model req = "") then GetDefaultModel provider
              else Model req in
            let chatReq :=
              {| StreamChatRequest_Messages := history;
                 StreamChatRequest_Model := model |} in
            if negb (isFlusher w) then
              (set_sessions g sm,
               HttpError "Streaming not supported"
                 http.StatusInternalServerError)
            else
              let ctx := RequestContext in
              match StreamChat provider ctx chatReq with
              | Err err =>
                  (set_sessions g sm, EventStream [DataError (Error err)])
              | Ok chunkChan =>
                  let '(sm', frames) := chatLoop sessionKey chunkChan "" sm in
                  (set_sessions g sm', EventStream frames)
              end
        end
    end.

(** *** The socket binding *)

(** A socket connection, by its writes: [writeErrs] holds what the coming
    [WriteJSON] calls return, oldest first ([nil] once used up), and
    [written] the values that went out. *)
Record Conn : Type := {
  writeErrs : list (option error);
  written : list ChatResponse
}.

Definition WriteJSON (v : ChatResponse) (conn : Conn) : option error * Conn :=
  match writeErrs conn with
  | [] => (None, {| writeErrs := []; written := written conn ++ [v] |})
  | None :: errs =>
      (None, {| writeErrs := errs; written := written conn ++ [v] |})
  | Some err :: errs =>
      (Some err, {| writeErrs := errs; written := written conn |})
  end.

(** The loop [for chunk := range chunkChan] of [handleWebSocket]. *)
Fixpoint socketLoop (sessionKey : string) (chunks : list StreamChunk)
    (fullResponse : string) (sm : session.SessionManager) (conn : Conn)
    : session.SessionManager * Conn :=
  match chunks with
  | [] => (sm, conn)
  | chunk :: chunks' =>
      match StreamChunk_Error chunk with
      | Some err =>
          (sm,
           (WriteJSON {| ChatResponse_Content := ""; ChatResponse_Done := false;
                         ChatResponse_Error := Error err |} conn).2)
      | None =>
          match WriteJSON {| ChatResponse_Content := StreamChunk_Content chunk;
                             ChatResponse_Done := StreamChunk_Done chunk;
                             ChatResponse_Error := "" |} conn with
          | (Some _, conn) => (sm, conn)
          | (None, conn) =>
              let fullResponse := fullResponse +:+ StreamChunk_Content chunk in
              if StreamChunk_Done chunk then
                (if decide (fullResponse ≠ "") then
                   (session.Save sessionKey
                      (session.AddMessage sessionKey "assistant" fullResponse
                         sm)).2
                 else sm,
                 conn)
              else socketLoop sessionKey chunks' fullResponse sm conn
          end
      end
  end.

(** One pass through the body of the [for] loop of [handleWebSocket], for a
    request [req] that [conn.ReadJSON] delivered at time [now]. *)
Definition socketTurn (g : Globals) (now : string) (req : ChatRequest)
    (conn : Conn) : Globals * Conn :=
  let sessionKey :=
    if decide (SessionKey req = "") then "webui:" +:+ now
    else SessionKey req in
  let providerName :=
    if decide (Provider req = "") then
      match getDefaultProvider g with
      | Some p => Name p
      | None => Provider req
      end
    else Provider req in
  match getProvider g providerName with
  | None =>
      (g,
       (WriteJSON
          {| ChatResponse_Content := ""; ChatResponse_Done := false;
             ChatResponse_Error :=
               "Provider '" +:+ providerName +:+ "' not available" |} conn).2)
  | Some provider =>
      let history := session.GetHistory (sessions g) sessionKey in
      let '(history, sm) :=
        appendMessages sessionKey (Messages req) history (sessions g) in
      let history :=
        if decide (SystemPrompt req ≠ "") then
          {| providers.Message_Role := "system";
             providers.Message_Content := SystemPrompt req |} :: history
        else history in
      let model :=
        if decide (Model req = "") then GetDefaultModel provider
        else Model req in
      let chatReq :=
        {| StreamChatRequest_Messages := history;
           StreamChatRequest_Model := model |} in
      let ctx := Background in
      match StreamChat provider ctx chatReq with
      | Err err =>
          (set_sessions g sm,
           (WriteJSON {| ChatResponse_Content := ""; ChatResponse_Done := false;
                         ChatResponse_Error := Error err |} conn).2)
      | Ok chunkChan =>
          let '(sm', conn') := socketLoop sessionKey chunkChan "" sm conn in
          (set_sessions g sm', conn')
      end
  end.

(** [incoming] lists what the successive [conn.ReadJSON] calls return,
    each with the time of its turn; a failed read, or the end of the list
    (the peer is gone), leaves the loop. *)
Fixpoint socketSession (g : Globals) (incoming : list (string * Result ChatRequest))
    (conn : Conn) : Globals * Conn :=
  match incoming with
  | [] => (g, conn)
  | (_, Err _) :: _ => (g, conn)
  | (now, Ok req) :: incoming' =>
      let '(g', conn') := socketTurn g now req conn in
      socketSession g' incoming' conn'
  end.

Definition handleWebSocket (g : Globals) (upgrade : Result Conn)
    (incoming : list (string * Result ChatRequest)) : Globals * option Conn :=
  match upgrade with
  | Err _ => (g, None)
  | Ok conn =>
      let '(g', conn') := socketSession g incoming conn in
      (g', Some conn')
  end.

End webui.

(** ** The browser client (cmd/webui/static/app.js)

    The part of [PicoClawApp] that sends a turn and reads the event stream
    of the answer.  Updates of the page (status line, typing indicator,
    [innerHTML]) and the console are not modelled. *)
Module app.

Record Message : Type := {
  Message_role : string;
  Message_content : string
}.

(** The object [JSON.parse] makes of the payload of a [data:] line, read
    through its properties [error], [content] and [done]; a property that is
    absent reads as the empty string, resp. [false]. *)
Record Data : Type := {
  Data_error : string;
  Data_content : string;
  Data_done : bool
}.

(** The value handed to [JSON.stringify] for the body of the request. *)
Record ChatBody : Type := {
  ChatBody_messages : list Message;
  ChatBody_provider : string;
  ChatBody_model : string;
  ChatBody_systemPrompt : string;
  ChatBody_sessionKey : string
}.

(** The response of [fetch]: [body] lists the decoded text of the values
    its reader delivers, and [failure] tells how the reads end: [None] when
    the reader reports [done] after them, and the error when the promise of
    [reader.read()] is rejected after them (the connection breaks, the
    request is aborted). *)
Record Response : Type := {
  ok : bool;
  status : Z;
  body : list string;
  failure : option error
}.

(** [this], as far as the two functions read and write it. *)
Record PicoClawApp : Type := {
  messages : list Message;
  sessionKey : string
}.

(** A non-empty string is truthy. *)
Definition truthy (s : string) : bool := negb (bool_decide (s = "")).

(** The line feed, ['\n']. *)
Definition LF : Ascii.ascii := Ascii.ascii_of_nat 10.

(** [s.split('\n')]. *)
Fixpoint split (s : string) : list string :=
  match s with
  | EmptyString => [""]
  | String c s' =>
      if Ascii.eqb c LF then "" :: split s'
      else
        match split s' with
        | line :: lines => String c line :: lines
        | [] => [String c ""]
        end
  end.

(** [s.slice(n)]. *)
Fixpoint slice (n : nat) (s : string) : string :=
  match n, s with
  | O, _ => s
  | S n', String _ s' => slice n' s'
  | S _, EmptyString => ""
  end.

Definition startsWith (s searchString : string) : bool :=
  String.prefix searchString s.

(** The variables of the reading loop. *)
Record Reading : Type := {
  fullResponse : string;
  pushed : list Message
}.

Section Client.
(** [JSON.parse]: [None] when it throws. *)
Variable JSON_parse : string → option Data.
(** [fetch]: [Err] when its promise is rejected (the server cannot be
    reached, the request is aborted). *)
Variable fetch : ChatBody → Result Response.

(** The body of the [try] block of [streamResponse]; a [throw] gives up the
    line and leaves the variables as they are. *)
Definition streamData (data : Data) (st : Reading) : Reading :=
  if truthy (Data_error data) then st
  else
    let st :=
      if truthy (Data_content data) then
        {| fullResponse := fullResponse st +:+ Data_content data;
           pushed := pushed st |}
      else st in
    if Data_done data then
      {| fullResponse := fullResponse st;
         pushed := pushed st ++
                   [ {| Message_role := "assistant";
                        Message_content := fullResponse st |} ] |}
    else st.

(** The body of the [try] block of [nonStreamResponse]. *)
Definition nonStreamData (data : Data) (st : Reading) : Reading :=
  if truthy (Data_error data) then st
  else
    let st :=
      if truthy (Data_content data) then
        {| fullResponse := fullResponse st +:+ Data_content data;
           pushed := pushed st |}
      else st in
    if Data_done data then
      {| fullResponse := fullResponse st;
         pushed := pushed st ++
                   [ {| Message_role := "assistant";
                        Message_content := fullResponse st |} ] |}
    else st.

(** The body of [for (const line of lines)]. *)
Definition onLine (onData : Data → Reading → Reading) (st : Reading)
    (line : string) : Reading :=
  if startsWith line "data: " then
    match JSON_parse (slice 6 line) with
    | Some data => onData data st
    | None => st
    end
  else st.

(** The loop [while (true)] over the values of the reader. *)
Fixpoint readLoop (onData : Data → Reading → Reading) (values : list string)
    (buffer : string) (st : Reading) : Reading :=
  match values with
  | [] => st
  | value :: values' =>
      let buffer := buffer +:+ value in
      let lines := split buffer in
      let buffer := default "" (last lines) in
      let lines := removelast lines in
      readLoop onData values' buffer (foldl (onLine onData) st lines)
  end.

Definition chatBody (this : PicoClawApp)
    (provider model content systemPrompt : string) : ChatBody :=
  {| ChatBody_messages :=
       messages this ++
         [ {| Message_role := "user"; Message_content := content |} ];
     ChatBody_provider := provider;
     ChatBody_model := model;
     ChatBody_systemPrompt := systemPrompt;
     ChatBody_sessionKey := sessionKey this |}.

(** The value is [this] after the call, and the error with which the promise
    of the call is rejected, if any.  Nothing catches a rejection of [fetch]
    or of [reader.read()], nor the error thrown for a response that is not
    [ok]; the Messages pushed before a read is rejected stay.  The calls on
    the page ([updateStatus], [formatMarkdown], [scrollToBottom], the typing
    indicator) are taken not to throw. *)
Definition streamResponse (this : PicoClawApp)
    (provider model content systemPrompt : string)
    : PicoClawApp * option error :=
  match fetch (chatBody this provider model content systemPrompt) with
  | Err err => (this, Some err)
  | Ok response =>
      if negb (ok response) then
        (this,
         Some (errorString
                 ("HTTP error! status: " +:+ pretty (status response))))
      else
        let st :=
          readLoop streamData (body response) ""
            {| fullResponse := ""; pushed := messages this |} in
        match failure response with
        | Some err =>
            ({| messages := pushed st; sessionKey := sessionKey this |},
             Some err)
        | None =>
            ({| messages :=
                  if truthy (fullResponse st) then
                    pushed st ++
                      [ {| Message_role := "assistant";
                           Message_content := fullResponse st |} ]
                  else pushed st;
                sessionKey := sessionKey this |}, None)
        end
  end.

Definition nonStreamResponse (this : PicoClawApp)
    (provider model content systemPrompt : string)
    : PicoClawApp * option error :=
  match fetch (chatBody this provider model content systemPrompt) with
  | Err err => (this, Some err)
  | Ok response =>
      if negb (ok response) then
        (this,
         Some (errorString
                 ("HTTP error! status: " +:+ pretty (status response))))
      else
        let st :=
          readLoop nonStreamData (body response) ""
            {| fullResponse := ""; pushed := messages this |} in
        match failure response with
        | Some err =>
            ({| messages := pushed st; sessionKey := sessionKey this |},
             Some err)
        | None =>
            ({| messages :=
                  if truthy (fullResponse st) &&
                     negb (bool_decide
                             (Exists (λ m, Message_content m = fullResponse st)
                                (pushed st)))
                  then
                    pushed st ++
                      [ {| Message_role := "assistant";
                           Message_content := fullResponse st |} ]
                  else pushed st;
                sessionKey := sessionKey this |}, None)
        end
  end.
End Client.

End app.

(** * Properties *)

(** ** Vocabulary of the stream contract *)

(** A chunk is terminal when it carries the done marker or an error. *)
Definition terminal (c : providers.StreamChunk) : bool :=
  providers.StreamChunk_Done c || bool_decide (is_Some (providers.StreamChunk_Error c)).

Definition wterminal (c : webui.StreamChunk) : bool :=
  webui.StreamChunk_Done c || bool_decide (is_Some (webui.StreamChunk_Error c)).

(** The upstream body runs out, or reports [io.EOF], before any done marker
    or decoding failure. *)
Fixpoint endsOnEOF (values : list (Result wire.ChatResponse)) : bool :=
  match values with
  | [] => true
  | Err err :: _ => bool_decide (err = io_EOF)
  | Ok r :: values' => if wire.Done r then false else endsOnEOF values'
  end.

Definition contentChunk (text : string) : webui.StreamChunk :=
  {| webui.StreamChunk_Content := text; webui.StreamChunk_Done := false;
     webui.StreamChunk_Error := None |}.

Definition doneChunk (text : string) : webui.StreamChunk :=
  {| webui.StreamChunk_Content := text; webui.StreamChunk_Done := true;
     webui.StreamChunk_Error := None |}.

Definition errorChunk (text : string) (done : bool) (err : error)
    : webui.StreamChunk :=
  {| webui.StreamChunk_Content := text; webui.StreamChunk_Done := done;
     webui.StreamChunk_Error := Some err |}.

(** The [ChatResponse] values the bindings encode: one holding a delta, one
    holding the done marker, one holding an error message. *)
Definition contentFragment (text : string) : webui.ChatResponse :=
  {| webui.ChatResponse_Content := text; webui.ChatResponse_Done := false;
     webui.ChatResponse_Error := "" |}.

Definition doneFragment (text : string) : webui.ChatResponse :=
  {| webui.ChatResponse_Content := text; webui.ChatResponse_Done := true;
     webui.ChatResponse_Error := "" |}.

Definition errorFragment (msg : string) : webui.ChatResponse :=
  {| webui.ChatResponse_Content := ""; webui.ChatResponse_Done := false;
     webui.ChatResponse_Error := msg |}.

(** What [handleWebSocket] writes on its socket for a chunk for which
    [handleChat] writes the frame [f]: for a data frame the same
    [ChatResponse], encoded as JSON by both; for an error line a
    [ChatResponse] holding the message in [Error], encoded as JSON.  The
    line and the socket frame carry the same message but are not the same
    text: [handleChat] formats the line by hand and does not escape the
    message. *)
Definition socketFrame (f : webui.SSEFrame) : webui.ChatResponse :=
  match f with
  | webui.DataJSON response => response
  | webui.DataError msg => errorFragment msg
  end.

(** The provider name a turn request resolves to. *)
Definition requestedProvider (g : webui.Globals) (req : webui.ChatRequest)
    : string :=
  if decide (webui.Provider req = "") then
    match webui.getDefaultProvider g with
    | Some p => webui.Name p
    | None => webui.Provider req
    end
  else webui.Provider req.

Definition requestedKey (now : string) (req : webui.ChatRequest) : string :=
  if decide (webui.SessionKey req = "") then "webui:" +:+ now
  else webui.SessionKey req.

Definition post (req : webui.ChatRequest) : webui.Request :=
  {| webui.Request_Method := http.MethodPost; webui.Request_Body := Ok req |}.

Definition flushing : webui.ResponseWriter := {| webui.isFlusher := true |}.

Definition notAvailable (name : string) : string :=
  "Provider '" +:+ name +:+ "' not available".

(** The request the [ollama] package posts to [/api/chat]. *)
Definition chatPost (p : ollama.Provider) (c : Context)
    (req : providers.ChatRequest) (stream : bool) : http.Request :=
  {| http.ctx := c; http.Method := http.MethodPost;
     http.URL := ollama.BaseURL (ollama.config p) +:+ "/api/chat";
     http.Header := [("Content-Type", "application/json")];
     http.ReqBody :=
       Some {| wire.Model := ollama.Model (ollama.config p);
               wire.Messages :=
                 map (λ msg, {| wire.Role := providers.Message_Role msg;
                                wire.Content := providers.Message_Content msg |})
                     (providers.ChatRequest_Messages req);
               wire.Stream := stream |} |}.

(** The request [OllamaProvider.Chat] posts to [/api/chat]. *)
Definition ollamaPost (p : providers.OllamaProvider) (c : Context)
    (messages : list providers.Message) (model : string) : http.Request :=
  {| http.ctx := c; http.Method := http.MethodPost;
     http.URL := providers.BaseURL (providers.config p) +:+ "/api/chat";
     http.Header := [("Content-Type", "application/json")];
     http.ReqBody :=
       Some {| wire.Model :=
                 if decide (model = "") then providers.Model (providers.config p)
                 else model;
               wire.Messages :=
                 map (λ msg, {| wire.Role := providers.Message_Role msg;
                                wire.Content := providers.Message_Content msg |})
                     messages;
               wire.Stream := false |} |}.

Definition noMessages : error := errorString "no messages provided".

Definition statusError (resp : http.Response) : error :=
  errorString ("ollama returned status " +:+ pretty (http.StatusCode resp)
                 +:+ ": " +:+ http.Bytes (http.RespBody resp)).

(** The stream contract of the spec: exactly one terminal chunk, and it is
    the last one. *)
Definition oneTerminalLast (chunks : list providers.StreamChunk) : Prop :=
  ∃ contents t,
    chunks = contents ++ [t] ∧
    Forall (λ c, terminal c = false) contents ∧
    terminal t = true.

(** Non-terminal chunks carry text. *)
Definition deltasNonEmpty (chunks : list providers.StreamChunk) : Prop :=
  Forall (λ c, terminal c = false → providers.StreamChunk_Content c ≠ "") chunks.


Definition asMessage (msg : webui.ChatMessage) : providers.Message :=
  {| providers.Message_Role := webui.ChatMessage_Role msg;
     providers.Message_Content := webui.ChatMessage_Content msg |}.

(** The session store once the user messages of a turn are appended. *)
Definition accepted (g : webui.Globals) (now : string) (req : webui.ChatRequest)
    : session.SessionManager :=
  (webui.appendMessages (requestedKey now req) (webui.Messages req)
     (session.GetHistory (webui.sessions g) (requestedKey now req))
     (webui.sessions g)).2.

(** The messages a turn sends upstream. *)
Definition prompt (g : webui.Globals) (now : string) (req : webui.ChatRequest)
    : list providers.Message :=
  let history :=
    (webui.appendMessages (requestedKey now req) (webui.Messages req)
       (session.GetHistory (webui.sessions g) (requestedKey now req))
       (webui.sessions g)).1 in
  if decide (webui.SystemPrompt req ≠ "") then
    {| providers.Message_Role := "system";
       providers.Message_Content := webui.SystemPrompt req |} :: history
  else history.

Definition modelFor (p : webui.ProviderWrapper) (req : webui.ChatRequest)
    : string :=
  if decide (webui.Model req = "") then webui.GetDefaultModel p
  else webui.Model req.

(** The session store once an assistant answer is committed. *)
Definition committed (key text : string) (sm : session.SessionManager)
    : session.SessionManager :=
  (session.Save key (session.AddMessage key "assistant" text sm)).2.

(** The text accumulated from a run of deltas. *)
Definition joined (texts : list string) : string :=
  foldr String.append "" texts.

(** The durable copy of a session agrees with the one in memory. *)
Definition persisted (key : string) (sm : session.SessionManager) : Prop :=
  session.storage sm !! key = Some (session.GetHistory sm key).

(** What the provider of a turn answers under the context [c]. *)
Definition upstream (c : Context) (g : webui.Globals) (now : string)
    (req : webui.ChatRequest) (p : webui.ProviderWrapper)
    : Result providers.LLMResponse :=
  providers.LLMProvider_Chat (webui.provider p) c (prompt g now req)
    (modelFor p req).

Definition deltaChunk (text : string) : providers.StreamChunk :=
  {| providers.StreamChunk_Content := text; providers.StreamChunk_Done := false;
     providers.StreamChunk_Error := None |}.

Definition failedChunk (err : error) : providers.StreamChunk :=
  {| providers.StreamChunk_Content := ""; providers.StreamChunk_Done := false;
     providers.StreamChunk_Error := Some err |}.

(** The base URL [initializeProviders] hands to [CreateOllamaProvider], the
    provider this makes, and the outcome of the model listing it then
    tries. *)
Definition startupURL (g : webui.Globals) : string :=
  if decide (webui.Providers_VLLM_APIBase (webui.cfg g) ≠ "")
  then webui.Providers_VLLM_APIBase (webui.cfg g)
  else "http://localhost:11434".

Definition startupProvider (transport : http.Request → Result http.Response)
    (g : webui.Globals) : providers.OllamaProvider :=
  {| providers.config :=
       {| providers.BaseURL :=
            if decide (startupURL g = "") then providers.DefaultOllamaBaseURL
            else startupURL g;
          providers.Model := providers.DefaultOllamaModel;
          providers.Timeout := 120 * Second |};
     providers.httpClient :=
       {| http.Timeout := 120 * Second; http.Transport := transport |} |}.

Definition startupProbe (url_error : string → option error)
    (transport : http.Request → Result http.Response) (g : webui.Globals)
    : Result (list string) :=
  (providers.ListModels url_error (startupProvider transport g)
     (WithTimeout Background (2 * Second))).2.

(** The probe fails: the listing reports an error or no model. *)
Definition probeFailed (listing : Result (list string)) : bool :=
  match listing with
  | Ok (_ :: _) => false
  | Ok [] => true
  | Err _ => true
  end.

(** The request of the model listing tried at startup. *)
Definition startupListing (g : webui.Globals) : http.Request :=
  {| http.ctx := WithTimeout Background (2 * Second);
     http.Method := http.MethodGet;
     http.URL := startupURL g +:+ "/api/tags";
     http.Header := [];
     http.ReqBody := None |}.

(** Every registered wrapper is stored under its own name. *)
Definition wellNamed (g : webui.Globals) : Prop :=
  ∀ key p, webui.providerMap g !! key = Some p → webui.name p = key.

(** The chunk of a done marker, as the streaming adapter sends it. *)
Definition closingChunk : providers.StreamChunk :=
  {| providers.StreamChunk_Content := ""; providers.StreamChunk_Done := true;
     providers.StreamChunk_Error := None |}.

(** What [handleWebSocket] writes for a turn to which [handleChat] gives
    the reply: the socket frames of its frames, or, where [handleChat]
    answers with an [http.Error] (a plain-text reply, not an event stream),
    one JSON frame holding the message of that reply in [Error]. *)
Definition socketFrames (reply : webui.Reply) : list webui.ChatResponse :=
  match reply with
  | webui.EventStream frames => map socketFrame frames
  | webui.HttpError msg _ => [errorFragment msg]
  end.

(** A sequence of turns, each through [handleChat] on a writer that can
    flush: the globals after the last turn, and the replies in order. *)
Fixpoint httpTurns (g : webui.Globals) (turns : list (string * webui.ChatRequest))
    : webui.Globals * list webui.Reply :=
  match turns with
  | [] => (g, [])
  | (now, req) :: turns' =>
      let '(g1, reply) := webui.handleChat g now flushing (post req) in
      let '(g2, replies) := httpTurns g1 turns' in
      (g2, reply :: replies)
  end.

(** The same turns as the reads of one socket connection. *)
Definition asReads (turns : list (string * webui.ChatRequest))
    : list (string * Result webui.ChatRequest) :=
  map (λ '(now, req), (now, Ok req)) turns.

(** The provider answers alike under the request context and under the
    background context. *)
Definition contextBlind (p : webui.ProviderWrapper) : Prop :=
  ∀ messages model,
    providers.LLMProvider_Chat (webui.provider p) RequestContext messages model =
    providers.LLMProvider_Chat (webui.provider p) Background messages model.







(** The models [handleModels] reports for a provider. *)
Definition reportedModels (p : webui.ProviderWrapper) : list string :=
  match webui.ListModels p Background with
  | Ok models => models
  | Err _ => ["default"]
  end.

(** Vocabulary for the browser client: the events of a stream, and the
    lines that carry them. *)
Definition contentEvent (text : string) : app.Data :=
  {| app.Data_error := ""; app.Data_content := text; app.Data_done := false |}.

Definition doneEvent (text : string) : app.Data :=
  {| app.Data_error := ""; app.Data_content := text; app.Data_done := true |}.

Definition assistantSays (text : string) : app.Message :=
  {| app.Message_role := "assistant"; app.Message_content := text |}.

(** The events of some lines: those of the [data:] lines whose payload
    parses, in order; the other lines carry none. *)
Definition eventsOf (JSON_parse : string → option app.Data)
    (lines : list string) : list app.Data :=
  omap (λ line,
          if app.startsWith line "data: " then JSON_parse (app.slice 6 line)
          else None) lines.

(** The complete lines of a body: all that [split] yields but the text after
    the last line feed. *)
Definition completeLines (values : list string) : list string :=
  removelast (app.split (joined values)).

(** A line followed by its line feed. *)
Definition terminated (line : string) : string :=
  line +:+ String app.LF "".

(** A stand-in for [JSON.parse] on sample payloads: [c:text] is a content
    event, [d:text] a done event, [e:text] an event with an error, and
    anything else does not parse. *)
Definition toyParse (payload : string) : option app.Data :=
  if app.startsWith payload "c:" then Some (contentEvent (app.slice 2 payload))
  else if app.startsWith payload "d:" then Some (doneEvent (app.slice 2 payload))
  else if app.startsWith payload "e:" then
    Some {| app.Data_error := app.slice 2 payload; app.Data_content := "";
            app.Data_done := false |}
  else None.

(** A server that answers every request with status 200 and a body
    delivered whole, as the given values. *)
Definition answered (values : list string)
    : app.ChatBody → Result app.Response :=
  λ _, Ok {| app.ok := true; app.status := 200; app.body := values;
             app.failure := None |}.

Definition freshApp : app.PicoClawApp :=
  {| app.messages := []; app.sessionKey := "webui:1" |}.

(** The request of a model listing by the [ollama] package. *)
Definition tagsGet (p : ollama.Provider) (c : Context) : http.Request :=
  {| http.ctx := c; http.Method := http.MethodGet;
     http.URL := ollama.BaseURL (ollama.config p) +:+ "/api/tags";
     http.Header := []; http.ReqBody := None |}.

(** The frame the socket binding sends for a turn, read off the registry
    and the answer of the provider under the context [c]: an error frame
    when the provider is not available or fails, and the answer with the
    done marker otherwise. *)
Definition answerFrame (c : Context) (g : webui.Globals) (now : string)
    (req : webui.ChatRequest) : webui.ChatResponse :=
  match webui.getProvider g (requestedProvider g req) with
  | None => errorFragment (notAvailable (requestedProvider g req))
  | Some p =>
      match upstream c g now req p with
      | Ok resp => doneFragment (providers.LLMResponse_Content resp)
      | Err err => errorFragment (Error err)
      end
  end.

(** The globals a turn leaves: untouched when the provider is not
    available; otherwise the store holds the user Messages of the request
    and, when the provider gave a non-empty answer, the answer, committed. *)
Definition afterTurn (c : Context) (g : webui.Globals) (now : string)
    (req : webui.ChatRequest) : webui.Globals :=
  match webui.getProvider g (requestedProvider g req) with
  | None => g
  | Some p =>
      webui.set_sessions g
        match upstream c g now req p with
        | Ok resp =>
            if decide (providers.LLMResponse_Content resp ≠ "")
            then committed (requestedKey now req)
                   (providers.LLMResponse_Content resp) (accepted g now req)
            else accepted g now req
        | Err _ => accepted g now req
        end
  end.

(** The globals after a sequence of turns over a socket, and the frames of
    their answers: each turn starts from the globals the turn before it
    left. *)
Fixpoint afterTurns (g : webui.Globals) (turns : list (string * webui.ChatRequest))
    : webui.Globals :=
  match turns with
  | [] => g
  | (now, req) :: turns' => afterTurns (afterTurn Background g now req) turns'
  end.

Fixpoint answerFrames (g : webui.Globals)
    (turns : list (string * webui.ChatRequest)) : list webui.ChatResponse :=
  match turns with
  | [] => []
  | (now, req) :: turns' =>
      answerFrame Background g now req ::
        answerFrames (afterTurn Background g now req) turns'
  end.

(** The reads of a connection end, or go on with a read that fails. *)
Definition endsOrFails (incoming : list (string * Result webui.ChatRequest))
    : Prop :=
  incoming = [] ∨ ∃ now err rest, incoming = (now, Err err) :: rest.

(** ** Sample data *)
Module sample.

Definition partial (text : string) : wire.ChatResponse :=
  {| wire.RModel := "llama3.2"; wire.CreatedAt := 0;
     wire.RMessage := {| wire.Role := "assistant"; wire.Content := text |};
     wire.Done := false |}.

Definition delta (text : string) : Result wire.ChatResponse :=
  Ok (partial text).

Definition finished : Result wire.ChatResponse :=
  Ok {| wire.RModel := "llama3.2"; wire.CreatedAt := 0;
        wire.RMessage := {| wire.Role := "assistant"; wire.Content := "" |};
        wire.Done := true |}.

Definition body (bytes : string) (values : list (Result wire.ChatResponse))
    : http.Body :=
  {| http.Bytes := bytes; http.ChatValues := values;
     http.Tags := Err (errorString "json: cannot unmarshal") |}.

Definition anyURL : string → option error := λ _, None.

Definition answering (resp : http.Response)
    : http.Request → Result http.Response := λ _, Ok resp.

Definition unreachable : http.Request → Result http.Response :=
  λ _, Err (errorString "dial tcp 127.0.0.1:11434: connect: connection refused").

Definition local (transport : http.Request → Result http.Response)
    : ollama.Provider :=
  {| ollama.config :=
       {| ollama.BaseURL := ollama.defaultBaseURL;
          ollama.Model := ollama.defaultModel;
          ollama.Timeout := ollama.defaultTimeout |};
     ollama.httpClient :=
       {| http.Timeout := ollama.defaultTimeout;
          http.Transport := transport |} |}.

Definition localOllama (transport : http.Request → Result http.Response)
    : providers.OllamaProvider :=
  {| providers.config :=
       {| providers.BaseURL := providers.DefaultOllamaBaseURL;
          providers.Model := providers.DefaultOllamaModel;
          providers.Timeout := 120 * Second |};
     providers.httpClient :=
       {| http.Timeout := 120 * Second; http.Transport := transport |} |}.

Definition user (text : string) : providers.Message :=
  {| providers.Message_Role := "user"; providers.Message_Content := text |}.

Definition assistant (text : string) : providers.Message :=
  {| providers.Message_Role := "assistant"; providers.Message_Content := text |}.

Definition ask (text : string) : providers.ChatRequest :=
  {| providers.ChatRequest_Messages := [user text] |}.

(** A provider replying with one complete block. *)
Definition replying (text : string) : providers.LLMProvider :=
  {| providers.LLMProvider_Chat _ _ _ :=
       Ok {| providers.LLMResponse_Content := text;
             providers.LLMResponse_FinishReason := "stop";
             providers.LLMResponse_Usage :=
               {| providers.PromptTokens := 0; providers.CompletionTokens := 0;
                  providers.TotalTokens := 0 |} |};
     providers.LLMProvider_GetDefaultModel := "llama3.2";
     providers.LLMProvider_ListModels := None |}.

Definition failing (err : error) : providers.LLMProvider :=
  {| providers.LLMProvider_Chat _ _ _ := Err err;
     providers.LLMProvider_GetDefaultModel := "llama3.2";
     providers.LLMProvider_ListModels := None |}.

Definition wrap (name : string) (prov : providers.LLMProvider)
    : webui.ProviderWrapper :=
  {| webui.name := name; webui.provider := prov;
     webui.listModelsFn := None |}.

(** The server with an empty, writable session store and [ollama]
    registered as [prov]. *)
Definition serving (prov : providers.LLMProvider) : webui.Globals :=
  {| webui.cfg := {| webui.Providers_VLLM_APIBase := "" |};
     webui.sessions := session.NewSessionManager ∅ true;
     webui.providerMap := {[ "ollama" := wrap "ollama" prov ]} |}.

(** The server as it is before [initializeProviders]. *)
Definition starting : webui.Globals :=
  {| webui.cfg := {| webui.Providers_VLLM_APIBase := "" |};
     webui.sessions := session.NewSessionManager ∅ true;
     webui.providerMap := ∅ |}.

Definition turn (providerName text : string) : webui.ChatRequest :=
  {| webui.Messages :=
       [ {| webui.ChatMessage_Role := "user";
            webui.ChatMessage_Content := text;
            webui.ChatMessage_Timestamp := 0 |} ];
     webui.Provider := providerName;
     webui.Model := "";
     webui.SystemPrompt := "";
     webui.SessionKey := "s1" |}.

Definition open : webui.Conn :=
  {| webui.writeErrs := []; webui.written := [] |}.

(** A socket whose next write fails. *)
Definition broken : webui.Conn :=
  {| webui.writeErrs := [Some (errorString "write: broken pipe")];
     webui.written := [] |}.

End sample.

(** ** The decoding loop of the streaming adapter *)

Lemma decodeLoop_shape (values : list (Result wire.ChatResponse)) :
  ∃ contents last,
    ollama.decodeLoop values = contents ++ last ∧
    Forall (λ c, terminal c = false) contents ∧
    Forall (λ c, terminal c = true ∧
                 ¬ (providers.StreamChunk_Done c = true ∧
                    is_Some (providers.StreamChunk_Error c))) last ∧
    length last = (if endsOnEOF values then 0 else 1)%nat.
Proof.
  induction values as [|[r|err] values IH]; simpl.
  - exists [], []. repeat split; constructor.
  - destruct (wire.Done r) eqn:Hdone.
    + eexists [], [_]. split; [reflexivity|].
      repeat split; try constructor; try constructor; simpl; try done.
      intros [_ [? ?]]; done.
    + destruct IH as (contents & last & -> & Hc & Hl & Hlen).
      eexists (_ :: contents), last. split; [reflexivity|].
      repeat split; try done. constructor; done.
  - destruct (decide (err = io_EOF)) as [->|Hne].
    + exists [], []. rewrite bool_decide_eq_true_2 by done.
      repeat split; constructor.
    + eexists [], [_]. rewrite bool_decide_eq_false_2 by done.
      split; [reflexivity|].
      repeat split; try constructor; try constructor; simpl; try done.
      intros [? _]; done.
Qed.

Lemma ollama_StreamChat_sent (url_error : string → option error)
    (p : ollama.Provider) (c : Context) (req : providers.ChatRequest) :
  providers.ChatRequest_Messages req ≠ [] →
  url_error (ollama.BaseURL (ollama.config p) +:+ "/api/chat") = None →
  ollama.StreamChat url_error p c req =
    ([chatPost p c req true],
     match http.Transport (ollama.httpClient p) (chatPost p c req true) with
     | Err err => Err (fmt_Errorf_w "failed to send request: " err)
     | Ok resp =>
         if decide (http.StatusCode resp ≠ http.StatusOK)
         then Err (statusError resp)
         else Ok (ollama.decodeLoop (http.ChatValues (http.RespBody resp)))
     end).
Proof.
  intros Hmsgs Hurl. unfold ollama.StreamChat.
  destruct (decide (length (providers.ChatRequest_Messages req) = 0%nat))
    as [Hlen|_].
  { by apply length_zero_iff_nil in Hlen. }
  unfold http.NewRequestWithContext, chatPost, http.Header_Set, statusError.
  rewrite Hurl. cbn.
  destruct (http.Transport _ _) as [resp|err]; [|done].
  by destruct (decide (http.StatusCode resp ≠ http.StatusOK)).
Qed.

Lemma ollama_StreamChat_Ok (url_error : string → option error)
    (p : ollama.Provider) (c : Context) (req : providers.ChatRequest)
    (chunks : list providers.StreamChunk) :
  (ollama.StreamChat url_error p c req).2 = Ok chunks →
  ∃ resp,
    http.Transport (ollama.httpClient p) (chatPost p c req true) = Ok resp ∧
    http.StatusCode resp = http.StatusOK ∧
    chunks = ollama.decodeLoop (http.ChatValues (http.RespBody resp)).
Proof.
  unfold ollama.StreamChat.
  destruct (decide (length (providers.ChatRequest_Messages req) = 0%nat));
    [done|].
  unfold http.NewRequestWithContext, chatPost, http.Header_Set.
  destruct (url_error _); [done|]. cbn.
  destruct (http.Transport _ _) as [resp|err] eqn:Hresp; [|done].
  destruct (decide (http.StatusCode resp ≠ http.StatusOK)) as [|Hok]; [done|].
  cbn. intros [= <-]. exists resp. split; [done|]. split; [|done].
  by apply dec_stable.
Qed.

(** C2, as the code has it: a stream of the Ollama streaming adapter is a run
    of non-terminal chunks followed by at most one terminal chunk, which is a
    done marker or an error and never both; there is no terminal chunk
    exactly when the upstream body ends before a done marker, and one
    otherwise. *)
Theorem ollama_stream_terminal (url_error : string → option error)
    (p : ollama.Provider) (c : Context) (req : providers.ChatRequest)
    (chunks : list providers.StreamChunk) :
  (ollama.StreamChat url_error p c req).2 = Ok chunks →
  ∃ resp contents last,
    http.Transport (ollama.httpClient p) (chatPost p c req true) = Ok resp ∧
    chunks = contents ++ last ∧
    Forall (λ c, terminal c = false) contents ∧
    Forall (λ c, terminal c = true ∧
                 ¬ (providers.StreamChunk_Done c = true ∧
                    is_Some (providers.StreamChunk_Error c))) last ∧
    length last =
      (if endsOnEOF (http.ChatValues (http.RespBody resp)) then 0 else 1)%nat.
Proof.
  intros (resp & Hresp & _ & ->)%ollama_StreamChat_Ok.
  destruct (decodeLoop_shape (http.ChatValues (http.RespBody resp)))
    as (contents & last & Heq & Hc & Hl & Hlen).
  by exists resp, contents, last.
Qed.

Lemma ollama_stream_terminal_witness :
  ∃ resp contents last,
    http.Transport
      (ollama.httpClient
         (sample.local (sample.answering
            {| http.StatusCode := 200;
               http.RespBody :=
                 sample.body "" [sample.delta "hel"; sample.delta "lo";
                                 sample.finished] |})))
      (chatPost
         (sample.local (sample.answering
            {| http.StatusCode := 200;
               http.RespBody :=
                 sample.body "" [sample.delta "hel"; sample.delta "lo";
                                 sample.finished] |}))
         Background (sample.ask "hi") true) = Ok resp ∧
    [ {| providers.StreamChunk_Content := "hel";
         providers.StreamChunk_Done := false;
         providers.StreamChunk_Error := None |};
      {| providers.StreamChunk_Content := "lo";
         providers.StreamChunk_Done := false;
         providers.StreamChunk_Error := None |};
      {| providers.StreamChunk_Content := "";
         providers.StreamChunk_Done := true;
         providers.StreamChunk_Error := None |} ] = contents ++ last ∧
    Forall (λ c, terminal c = false) contents ∧
    Forall (λ c, terminal c = true ∧
                 ¬ (providers.StreamChunk_Done c = true ∧
                    is_Some (providers.StreamChunk_Error c))) last ∧
    length last =
      (if endsOnEOF (http.ChatValues (http.RespBody resp)) then 0 else 1)%nat.
Proof.
  apply (ollama_stream_terminal sample.anyURL _ Background (sample.ask "hi")).
  reflexivity.
Defined.

(** C2, as stated, fails when the body ends after a delta: the stream then
    has no terminal chunk at all. *)
Lemma ollama_stream_eof_counterexample :
  (ollama.StreamChat sample.anyURL
     (sample.local (sample.answering
        {| http.StatusCode := 200;
           http.RespBody := sample.body "" [sample.delta "par"] |}))
     Background (sample.ask "hi")).2
  = Ok [ {| providers.StreamChunk_Content := "par";
            providers.StreamChunk_Done := false;
            providers.StreamChunk_Error := None |} ] ∧
  ¬ oneTerminalLast
      [ {| providers.StreamChunk_Content := "par";
           providers.StreamChunk_Done := false;
           providers.StreamChunk_Error := None |} ].
Proof.
  split; [reflexivity|].
  intros (contents & t & Heq & _ & Ht).
  destruct contents as [|c0 [|c1 contents]]; simplify_eq/=.
Qed.

Lemma decodeLoop_lookup (values : list (Result wire.ChatResponse)) (i : nat)
    (ch : providers.StreamChunk) :
  ollama.decodeLoop values !! i = Some ch →
  terminal ch = false →
  ∃ r, values !! i = Some (Ok r) ∧ wire.Done r = false ∧
       providers.StreamChunk_Content ch = wire.Content (wire.RMessage r).
Proof.
  revert i. induction values as [|[r|err] values IH]; intros i; simpl.
  - done.
  - destruct (wire.Done r) eqn:Hdone.
    + destruct i as [|i]; simpl; [|done]. by intros [= <-].
    + destruct i as [|i]; simpl.
      * intros [= <-] _. by exists r.
      * apply IH.
  - destruct (decide (err = io_EOF)); [done|].
    destruct i as [|i]; simpl; [|done]. by intros [= <-].
Qed.

(** ** The simulate-streaming wrapper *)

Lemma wrapper_StreamChat_terminal (p : webui.ProviderWrapper) (c : Context)
    (req : webui.StreamChatRequest) (chunks : list webui.StreamChunk) :
  webui.StreamChat p c req = Ok chunks →
  Forall (λ ch, wterminal ch = true) chunks.
Proof.
  unfold webui.StreamChat. intros [= <-].
  destruct (providers.LLMProvider_Chat _ _ _ _); by repeat constructor.
Qed.

(** C7, as the code has it: a non-terminal chunk of the Ollama streaming
    adapter carries, unchanged, the content of the upstream value at the same
    position, whether that content is empty or not; the simulate-streaming
    wrapper sends terminal chunks only. *)
Theorem adapters_forward_deltas :
  (∀ (url_error : string → option error) (p : ollama.Provider) (c : Context)
     (req : providers.ChatRequest) (chunks : list providers.StreamChunk),
     (ollama.StreamChat url_error p c req).2 = Ok chunks →
     ∃ resp,
       http.Transport (ollama.httpClient p) (chatPost p c req true) = Ok resp ∧
       ∀ i ch, chunks !! i = Some ch → terminal ch = false →
         ∃ r, http.ChatValues (http.RespBody resp) !! i = Some (Ok r) ∧
              providers.StreamChunk_Content ch = wire.Content (wire.RMessage r) ∧
              (providers.StreamChunk_Content ch ≠ "" ↔
               wire.Content (wire.RMessage r) ≠ "")) ∧
  (∀ (p : webui.ProviderWrapper) (c : Context) (req : webui.StreamChatRequest)
     (chunks : list webui.StreamChunk),
     webui.StreamChat p c req = Ok chunks →
     Forall (λ ch, wterminal ch = true) chunks).
Proof.
  split; [|apply wrapper_StreamChat_terminal].
  intros url_error p c req chunks (resp & Hresp & _ & ->)%ollama_StreamChat_Ok.
  exists resp. split; [done|]. intros i ch Hi Hch.
  destruct (decodeLoop_lookup _ _ _ Hi Hch) as (r & Hr & _ & Heq).
  exists r. by rewrite Heq.
Qed.

Lemma adapters_forward_deltas_witness :
  (∃ resp,
     sample.answering
       {| http.StatusCode := 200;
          http.RespBody := sample.body "" [sample.delta "hello"; sample.finished] |}
       (chatPost
          (sample.local (sample.answering
             {| http.StatusCode := 200;
                http.RespBody :=
                  sample.body "" [sample.delta "hello"; sample.finished] |}))
          Background (sample.ask "hi") true) = Ok resp ∧
     ∀ i ch,
       [ {| providers.StreamChunk_Content := "hello";
            providers.StreamChunk_Done := false;
            providers.StreamChunk_Error := None |};
         {| providers.StreamChunk_Content := "";
            providers.StreamChunk_Done := true;
            providers.StreamChunk_Error := None |} ] !! i = Some ch →
       terminal ch = false →
       ∃ r, http.ChatValues (http.RespBody resp) !! i = Some (Ok r) ∧
            providers.StreamChunk_Content ch = wire.Content (wire.RMessage r) ∧
            (providers.StreamChunk_Content ch ≠ "" ↔
             wire.Content (wire.RMessage r) ≠ "")) ∧
  Forall (λ ch, wterminal ch = true) [doneChunk "hello"].
Proof.
  split.
  - apply (proj1 adapters_forward_deltas sample.anyURL
             (sample.local (sample.answering
                {| http.StatusCode := 200;
                   http.RespBody :=
                     sample.body "" [sample.delta "hello"; sample.finished] |}))
             Background (sample.ask "hi")).
    reflexivity.
  - apply (proj2 adapters_forward_deltas
             (sample.wrap "ollama" (sample.replying "hello")) Background
             {| webui.StreamChatRequest_Messages := [sample.user "hi"];
                webui.StreamChatRequest_Model := "llama3.2" |}).
    reflexivity.
Defined.

(** C7, as stated, fails on an upstream value with empty content: it is
    forwarded as a content chunk holding the empty string. *)
Lemma ollama_empty_delta_counterexample :
  (ollama.StreamChat sample.anyURL
     (sample.local (sample.answering
        {| http.StatusCode := 200;
           http.RespBody := sample.body "" [sample.delta ""; sample.finished] |}))
     Background (sample.ask "hi")).2
  = Ok [ {| providers.StreamChunk_Content := "";
            providers.StreamChunk_Done := false;
            providers.StreamChunk_Error := None |};
         {| providers.StreamChunk_Content := "";
            providers.StreamChunk_Done := true;
            providers.StreamChunk_Error := None |} ] ∧
  ¬ deltasNonEmpty
      [ {| providers.StreamChunk_Content := "";
           providers.StreamChunk_Done := false;
           providers.StreamChunk_Error := None |};
        {| providers.StreamChunk_Content := "";
           providers.StreamChunk_Done := true;
           providers.StreamChunk_Error := None |} ].
Proof.
  split; [reflexivity|].
  intros H. apply Forall_cons in H as [H _]. by apply H.
Qed.

(** ** Strings and the session store *)

Lemma append_nil_l (s : string) : "" +:+ s = s.
Proof. reflexivity. Qed.

Lemma append_cons (a : Ascii.ascii) (s t : string) :
  String a s +:+ t = String a (s +:+ t).
Proof. reflexivity. Qed.

Lemma append_assoc (s1 s2 s3 : string) :
  (s1 +:+ s2) +:+ s3 = s1 +:+ (s2 +:+ s3).
Proof.
  induction s1 as [|a s1 IH]; [reflexivity|].
  by rewrite !append_cons, IH.
Qed.

Lemma GetHistory_AddMessage (key role content : string)
    (sm : session.SessionManager) :
  session.GetHistory (session.AddMessage key role content sm) key =
  session.GetHistory sm key ++
    [ {| providers.Message_Role := role; providers.Message_Content := content |} ].
Proof.
  unfold session.GetHistory at 1, session.AddMessage. simpl.
  by rewrite lookup_insert_eq.
Qed.

Lemma GetHistory_Save (key key' : string) (sm : session.SessionManager) :
  session.GetHistory (session.Save key sm).2 key' = session.GetHistory sm key'.
Proof. unfold session.Save. by destruct (session.writable sm). Qed.

Lemma Save_persisted (key : string) (sm : session.SessionManager) :
  session.writable sm = true → persisted key (session.Save key sm).2.
Proof.
  intros Hw. unfold persisted, session.Save. rewrite Hw. simpl.
  by rewrite lookup_insert_eq.
Qed.

Lemma committed_history (key text : string) (sm : session.SessionManager) :
  session.GetHistory (committed key text sm) key =
  session.GetHistory sm key ++ [sample.assistant text].
Proof.
  unfold committed. by rewrite GetHistory_Save, GetHistory_AddMessage.
Qed.

Lemma committed_persisted (key text : string) (sm : session.SessionManager) :
  session.writable sm = true → persisted key (committed key text sm).
Proof. intros Hw. by apply Save_persisted. Qed.

Lemma appendMessages_history (key : string) (msgs : list webui.ChatMessage)
    (history : list providers.Message) (sm : session.SessionManager) :
  (webui.appendMessages key msgs history sm).1 = history ++ map asMessage msgs.
Proof.
  revert history sm. induction msgs as [|msg msgs IH]; intros history sm; simpl.
  - by rewrite app_nil_r.
  - rewrite IH. by rewrite <- app_assoc.
Qed.

Lemma appendMessages_store (key : string) (msgs : list webui.ChatMessage)
    (history : list providers.Message) (sm : session.SessionManager) :
  session.GetHistory (webui.appendMessages key msgs history sm).2 key =
    session.GetHistory sm key ++ map asMessage msgs ∧
  session.storage (webui.appendMessages key msgs history sm).2 =
    session.storage sm ∧
  session.writable (webui.appendMessages key msgs history sm).2 =
    session.writable sm.
Proof.
  revert history sm. induction msgs as [|msg msgs IH]; intros history sm.
  - simpl. by rewrite app_nil_r.
  - cbn [webui.appendMessages map].
    destruct (IH (history ++ [asMessage msg])
                (session.AddMessage key (webui.ChatMessage_Role msg)
                   (webui.ChatMessage_Content msg) sm)) as (Hh & Hs & Hw).
    unfold asMessage in Hh, Hs, Hw at 1. rewrite Hh, Hs, Hw.
    rewrite GetHistory_AddMessage, <- app_assoc. done.
Qed.

(** ** The chunk loops of the two bindings *)

Lemma chatLoop_done (key : string) (texts : list string) (last : string)
    (rest : list webui.StreamChunk) (acc : string) (sm : session.SessionManager) :
  webui.chatLoop key (map contentChunk texts ++ doneChunk last :: rest) acc sm =
  (if decide (acc +:+ joined texts +:+ last ≠ "")
   then committed key (acc +:+ joined texts +:+ last) sm else sm,
   map (λ t, webui.DataJSON (contentFragment t)) texts ++
     [webui.DataJSON (doneFragment last)]).
Proof.
  revert acc. induction texts as [|t texts IH]; intros acc; simpl.
  - done.
  - rewrite IH. by rewrite !append_assoc.
Qed.

Lemma chatLoop_error (key : string) (texts : list string) (text : string)
    (done : bool) (err : error) (rest : list webui.StreamChunk) (acc : string)
    (sm : session.SessionManager) :
  webui.chatLoop key (map contentChunk texts ++ errorChunk text done err :: rest)
    acc sm =
  (sm, map (λ t, webui.DataJSON (contentFragment t)) texts ++
         [webui.DataError (Error err)]).
Proof.
  revert acc. induction texts as [|t texts IH]; intros acc; simpl.
  - done.
  - by rewrite IH.
Qed.

Lemma chatLoop_closed (key : string) (texts : list string) (acc : string)
    (sm : session.SessionManager) :
  webui.chatLoop key (map contentChunk texts) acc sm =
  (sm, map (λ t, webui.DataJSON (contentFragment t)) texts).
Proof.
  revert acc. induction texts as [|t texts IH]; intros acc; simpl.
  - done.
  - by rewrite IH.
Qed.

Lemma WriteJSON_ok (v : webui.ChatResponse) (conn : webui.Conn) :
  Forall (λ e, e = None) (webui.writeErrs conn) →
  ∃ conn',
    webui.WriteJSON v conn = (None, conn') ∧
    webui.written conn' = webui.written conn ++ [v] ∧
    Forall (λ e, e = None) (webui.writeErrs conn').
Proof.
  intros Hok. unfold webui.WriteJSON.
  destruct (webui.writeErrs conn) as [|[err|] errs] eqn:Herrs.
  - eexists. split; [reflexivity|]. by split.
  - by apply Forall_cons in Hok as [? _].
  - apply Forall_cons in Hok as [_ Hok].
    eexists. split; [reflexivity|]. by split.
Qed.

(** While the socket takes every write, the socket loop changes the session
    store as the event-stream loop does and writes the socket frame of each
    of its frames. *)
Lemma socketLoop_chatLoop (key : string) (chunks : list webui.StreamChunk)
    (acc : string) (sm : session.SessionManager) (conn : webui.Conn) :
  Forall (λ e, e = None) (webui.writeErrs conn) →
  ∃ conn',
    webui.socketLoop key chunks acc sm conn =
      ((webui.chatLoop key chunks acc sm).1, conn') ∧
    webui.written conn' =
      webui.written conn ++ map socketFrame (webui.chatLoop key chunks acc sm).2 ∧
    Forall (λ e, e = None) (webui.writeErrs conn').
Proof.
  revert acc conn. induction chunks as [|chunk chunks IH]; intros acc conn Hok.
  - exists conn. simpl. by rewrite app_nil_r.
  - simpl. destruct (webui.StreamChunk_Error chunk) as [err|].
    + destruct (WriteJSON_ok (errorFragment (Error err)) conn Hok)
        as (conn' & Hw & Hwritten & Hok').
      exists conn'. unfold errorFragment in Hw. rewrite Hw. by simpl.
    + destruct (WriteJSON_ok
                  {| webui.ChatResponse_Content := webui.StreamChunk_Content chunk;
                     webui.ChatResponse_Done := webui.StreamChunk_Done chunk;
                     webui.ChatResponse_Error := "" |} conn Hok)
        as (conn1 & Hw & Hwritten & Hok1).
      rewrite Hw. destruct (webui.StreamChunk_Done chunk).
      * exists conn1. by simpl.
      * destruct (IH (acc +:+ webui.StreamChunk_Content chunk) conn1 Hok1)
          as (conn' & Hloop & Hwritten' & Hok').
        exists conn'. rewrite Hloop.
        destruct (webui.chatLoop key chunks _ sm) as [sm' frames]. simpl in *.
        split; [done|]. split; [|done].
        by rewrite Hwritten', Hwritten, <- app_assoc.
Qed.

(** ** One turn through each binding *)

Lemma handleChat_served (g : webui.Globals) (now : string)
    (req : webui.ChatRequest) (p : webui.ProviderWrapper) :
  webui.getProvider g (requestedProvider g req) = Some p →
  webui.handleChat g now flushing (post req) =
    match upstream RequestContext g now req p with
    | Ok resp =>
        (webui.set_sessions g
           (if decide (providers.LLMResponse_Content resp ≠ "")
            then committed (requestedKey now req)
                   (providers.LLMResponse_Content resp) (accepted g now req)
            else accepted g now req),
         webui.EventStream
           [webui.DataJSON (doneFragment (providers.LLMResponse_Content resp))])
    | Err err =>
        (webui.set_sessions g (accepted g now req),
         webui.EventStream [webui.DataError (Error err)])
    end.
Proof.
  intros Hp. unfold webui.handleChat, post. cbn [webui.Request_Method webui.Request_Body].
  destruct (decide (http.MethodPost ≠ http.MethodPost)) as [|_]; [done|].
  fold (requestedKey now req). fold (requestedProvider g req). rewrite Hp.
  unfold upstream, prompt, accepted, modelFor.
  destruct (webui.appendMessages _ _ _ _) as [history sm]. cbn [fst snd].
  cbn [negb webui.isFlusher flushing]. unfold webui.StreamChat.
  cbn [webui.StreamChatRequest_Messages webui.StreamChatRequest_Model].
  destruct (providers.LLMProvider_Chat _ _ _ _) as [resp|err]; [|done].
  cbn [webui.chatLoop webui.StreamChunk_Error webui.StreamChunk_Done
         webui.StreamChunk_Content].
  by rewrite append_nil_l.
Qed.

Lemma handleChat_unknown (g : webui.Globals) (now : string)
    (w : webui.ResponseWriter) (req : webui.ChatRequest) :
  webui.getProvider g (requestedProvider g req) = None →
  webui.handleChat g now w (post req) =
    (g, webui.HttpError (notAvailable (requestedProvider g req))
          http.StatusBadRequest).
Proof.
  intros Hp. unfold webui.handleChat, post. cbn [webui.Request_Method webui.Request_Body].
  destruct (decide (http.MethodPost ≠ http.MethodPost)) as [|_]; [done|].
  fold (requestedProvider g req). by rewrite Hp.
Qed.

Lemma socketTurn_unknown (g : webui.Globals) (now : string)
    (req : webui.ChatRequest) (conn : webui.Conn) :
  webui.getProvider g (requestedProvider g req) = None →
  webui.socketTurn g now req conn =
    (g, (webui.WriteJSON (errorFragment (notAvailable (requestedProvider g req)))
           conn).2).
Proof.
  intros Hp. unfold webui.socketTurn.
  fold (requestedProvider g req). by rewrite Hp.
Qed.

Lemma socketTurn_served (g : webui.Globals) (now : string)
    (req : webui.ChatRequest) (conn : webui.Conn) (p : webui.ProviderWrapper) :
  webui.getProvider g (requestedProvider g req) = Some p →
  webui.socketTurn g now req conn =
    let '(sm', conn') :=
      webui.socketLoop (requestedKey now req)
        match upstream Background g now req p with
        | Ok resp => [doneChunk (providers.LLMResponse_Content resp)]
        | Err err => [errorChunk "" false err]
        end "" (accepted g now req) conn in
    (webui.set_sessions g sm', conn').
Proof.
  intros Hp. unfold webui.socketTurn.
  fold (requestedKey now req). fold (requestedProvider g req). rewrite Hp.
  unfold upstream, prompt, accepted, modelFor.
  destruct (webui.appendMessages _ _ _ _) as [history sm]. cbn [fst snd].
  unfold webui.StreamChat.
  cbn [webui.StreamChatRequest_Messages webui.StreamChatRequest_Model].
  by destruct (providers.LLMProvider_Chat _ _ _ _) as [resp|err].
Qed.




(** C3, as the code has it: a turn naming a provider that is not registered
    is turned down with the message [Provider '<name>' not available], as an
    HTTP 400 reply by the event-stream binding and as an error frame by the
    socket binding, and the session store is left as it was: neither an
    assistant Message nor the incoming user Message is appended. *)
Theorem unknown_provider_rejected (g : webui.Globals) (now : string)
    (w : webui.ResponseWriter) (req : webui.ChatRequest) (conn : webui.Conn) :
  webui.getProvider g (requestedProvider g req) = None →
  webui.handleChat g now w (post req) =
    (g, webui.HttpError (notAvailable (requestedProvider g req)) 400) ∧
  webui.socketTurn g now req conn =
    (g, (webui.WriteJSON (errorFragment (notAvailable (requestedProvider g req)))
           conn).2).
Proof.
  intros Hp. split.
  - by apply handleChat_unknown.
  - by apply socketTurn_unknown.
Qed.

Lemma unknown_provider_rejected_witness :
  webui.handleChat (sample.serving (sample.replying "hello")) "t0" flushing
    (post (sample.turn "gpt-nope" "hi")) =
    (sample.serving (sample.replying "hello"),
     webui.HttpError "Provider 'gpt-nope' not available" 400) ∧
  webui.socketTurn (sample.serving (sample.replying "hello")) "t0"
    (sample.turn "gpt-nope" "hi") sample.open =
    (sample.serving (sample.replying "hello"),
     {| webui.writeErrs := [];
        webui.written := [errorFragment "Provider 'gpt-nope' not available"] |}).
Proof.
  apply (unknown_provider_rejected (sample.serving (sample.replying "hello"))
           "t0" flushing (sample.turn "gpt-nope" "hi") sample.open).
  reflexivity.
Defined.

(** C3, as stated, fails: after a turn naming the unregistered provider
    [gpt-nope], the user Message is neither in the session's history nor in
    durable storage. *)
Lemma unknown_provider_counterexample :
  let g' :=
    (webui.handleChat (sample.serving (sample.replying "hello")) "t0" flushing
       (post (sample.turn "gpt-nope" "hi"))).1 in
  session.GetHistory (webui.sessions g') "s1" = [] ∧
  session.storage (webui.sessions g') !! "s1" = None ∧
  ¬ (session.GetHistory (webui.sessions g') "s1" = [sample.user "hi"]).
Proof. by split_and!. Qed.

(** C4, as the code has it: when the stream of a turn ends with a done chunk,
    the accumulated text is appended as one assistant Message and the session
    is then persisted if and only if that text is non-empty; when it is
    empty the session store is left alone, and is not persisted.  After the
    turn [{user, "hi"}] answered ["hello"] on a fresh session [s1], the
    history of [s1] is [[{user, "hi"}; {assistant, "hello"}]], in memory and
    in durable storage. *)
Theorem done_commits_answer (key : string) (texts : list string) (last : string)
    (rest : list webui.StreamChunk) (sm : session.SessionManager) :
  (∃ sm',
     webui.chatLoop key (map contentChunk texts ++ doneChunk last :: rest) "" sm =
       (sm', map (λ t, webui.DataJSON (contentFragment t)) texts ++
               [webui.DataJSON (doneFragment last)]) ∧
     (joined texts +:+ last ≠ "" →
        sm' = (session.Save key
                 (session.AddMessage key "assistant" (joined texts +:+ last) sm)).2 ∧
        session.GetHistory sm' key =
          session.GetHistory sm key ++ [sample.assistant (joined texts +:+ last)] ∧
        (session.writable sm = true → persisted key sm')) ∧
     (joined texts +:+ last = "" → sm' = sm)) ∧
  (let g' :=
     (webui.handleChat (sample.serving (sample.replying "hello")) "t0" flushing
        (post (sample.turn "ollama" "hi"))).1 in
   session.GetHistory (webui.sessions g') "s1" =
     [sample.user "hi"; sample.assistant "hello"] ∧
   session.storage (webui.sessions g') !! "s1" =
     Some [sample.user "hi"; sample.assistant "hello"]).
Proof.
  split; [|by vm_compute].
  eexists. split; [apply chatLoop_done|]. rewrite append_nil_l.
  destruct (decide (joined texts +:+ last ≠ "")) as [Hne|Heq].
  - split; [|done]. intros _. split; [done|].
    split; [apply committed_history|]. apply committed_persisted.
  - by split.
Qed.

Lemma done_commits_answer_witness :
  ∃ sm',
    webui.chatLoop "s1" [contentChunk "hel"; contentChunk "lo"; doneChunk ""] ""
      (session.AddMessage "s1" "user" "hi" (session.NewSessionManager ∅ true)) =
      (sm', [webui.DataJSON (contentFragment "hel");
             webui.DataJSON (contentFragment "lo");
             webui.DataJSON (doneFragment "")]) ∧
    session.GetHistory sm' "s1" = [sample.user "hi"; sample.assistant "hello"] ∧
    persisted "s1" sm'.
Proof.
  destruct (done_commits_answer "s1" ["hel"; "lo"] "" []
              (session.AddMessage "s1" "user" "hi"
                 (session.NewSessionManager ∅ true)))
    as [(sm' & Hloop & Hne & _) _].
  exists sm'. split; [exact Hloop|].
  destruct Hne as (_ & Hhistory & Hpersisted); [discriminate|].
  split; [exact Hhistory | apply Hpersisted; reflexivity].
Defined.

(** C4, as stated, fails for an empty answer: the stream ends with a done
    frame, yet the session, which holds the user Message in memory, is not
    persisted. *)
Lemma empty_answer_counterexample :
  let turn :=
    webui.handleChat (sample.serving (sample.replying "")) "t0" flushing
      (post (sample.turn "ollama" "hi")) in
  turn.2 = webui.EventStream [webui.DataJSON (doneFragment "")] ∧
  session.GetHistory (webui.sessions turn.1) "s1" = [sample.user "hi"] ∧
  session.storage (webui.sessions turn.1) !! "s1" = None ∧
  ¬ persisted "s1" (webui.sessions turn.1).
Proof.
  split_and!; [by vm_compute..|].
  unfold persisted. by vm_compute.
Qed.

(** C5: when the stream of a turn ends with an error chunk, the frames of the
    content chunks before it stay sent and are followed by the error frame,
    and the session store is what it was when the stream started: no
    assistant Message is appended and nothing is persisted.  For a turn
    through [handleChat] whose provider fails, the store holds the user
    Messages of the turn after its earlier history, and durable storage is
    untouched. *)
Theorem error_commits_nothing :
  (∀ (key : string) (texts : list string) (text : string) (done : bool)
     (err : error) (rest : list webui.StreamChunk) (sm : session.SessionManager),
     webui.chatLoop key (map contentChunk texts ++ errorChunk text done err :: rest)
       "" sm =
     (sm, map (λ t, webui.DataJSON (contentFragment t)) texts ++
            [webui.DataError (Error err)])) ∧
  (∀ (g : webui.Globals) (now : string) (req : webui.ChatRequest)
     (p : webui.ProviderWrapper) (err : error),
     webui.getProvider g (requestedProvider g req) = Some p →
     upstream RequestContext g now req p = Err err →
     ∃ sm',
       webui.handleChat g now flushing (post req) =
         (webui.set_sessions g sm', webui.EventStream [webui.DataError (Error err)]) ∧
       session.GetHistory sm' (requestedKey now req) =
         session.GetHistory (webui.sessions g) (requestedKey now req) ++
           map asMessage (webui.Messages req) ∧
       session.storage sm' = session.storage (webui.sessions g)).
Proof.
  split.
  - intros. apply chatLoop_error.
  - intros g now req p err Hp Herr. exists (accepted g now req).
    rewrite (handleChat_served g now req p Hp), Herr. split; [done|].
    unfold accepted.
    destruct (appendMessages_store (requestedKey now req) (webui.Messages req)
                (session.GetHistory (webui.sessions g) (requestedKey now req))
                (webui.sessions g)) as (Hh & Hs & _).
    by split.
Qed.

Lemma error_commits_nothing_witness :
  (webui.chatLoop "s1"
     [contentChunk "par"; errorChunk "" false (errorString "unexpected EOF")] ""
     (session.AddMessage "s1" "user" "hi" (session.NewSessionManager ∅ true)) =
   (session.AddMessage "s1" "user" "hi" (session.NewSessionManager ∅ true),
    [webui.DataJSON (contentFragment "par"); webui.DataError "unexpected EOF"])) ∧
  ∃ sm',
    webui.handleChat
      (sample.serving (sample.failing (errorString "connection refused"))) "t0"
      flushing (post (sample.turn "ollama" "hi")) =
      (webui.set_sessions
         (sample.serving (sample.failing (errorString "connection refused"))) sm',
       webui.EventStream [webui.DataError "connection refused"]) ∧
    session.GetHistory sm' "s1" = [] ++ [sample.user "hi"] ∧
    session.storage sm' = ∅.
Proof.
  split.
  - apply (proj1 error_commits_nothing "s1" ["par"] "" false
             (errorString "unexpected EOF") []).
  - apply (proj2 error_commits_nothing
             (sample.serving (sample.failing (errorString "connection refused")))
             "t0" (sample.turn "ollama" "hi")
             (sample.wrap "ollama"
                (sample.failing (errorString "connection refused")))
             (errorString "connection refused")).
    + reflexivity.
    + reflexivity.
Defined.

Lemma flusher_is_flushing (w : webui.ResponseWriter) :
  webui.isFlusher w = true → w = flushing.
Proof. destruct w as [[|]]; by intros [=]. Qed.

(** C9, as the code has it: for one turn request, on a response writer that
    can flush, with a socket that takes every write and a provider whose
    answer is the same under the request context as under the background
    context, the two bindings leave the same session store.  When the
    provider answers, both send one frame holding the same [ChatResponse]
    (the text with [done] set), encoded as JSON by both.  When the provider
    fails, both report the message of the error, the event-stream binding
    in a [data:] line it formats by hand without escaping the message, the
    socket binding as the JSON of a [ChatResponse] holding the message in
    [Error].  When the provider is not available both leave the store
    untouched and report the same message, the event-stream binding as an
    HTTP 400 reply and the socket binding as such an error frame. *)
Theorem bindings_agree (g : webui.Globals) (now : string)
    (w : webui.ResponseWriter) (req : webui.ChatRequest) (conn : webui.Conn) :
  webui.isFlusher w = true →
  Forall (λ e, e = None) (webui.writeErrs conn) →
  (∀ p, webui.getProvider g (requestedProvider g req) = Some p →
        upstream RequestContext g now req p = upstream Background g now req p) →
  (webui.handleChat g now w (post req)).1 =
    (webui.socketTurn g now req conn).1 ∧
  match webui.getProvider g (requestedProvider g req) with
  | None =>
      webui.handleChat g now w (post req) =
        (g, webui.HttpError (notAvailable (requestedProvider g req))
              http.StatusBadRequest) ∧
      webui.written (webui.socketTurn g now req conn).2 =
        webui.written conn ++
          [errorFragment (notAvailable (requestedProvider g req))]
  | Some p =>
      match upstream RequestContext g now req p with
      | Ok resp =>
          (webui.handleChat g now w (post req)).2 =
            webui.EventStream
              [webui.DataJSON
                 (doneFragment (providers.LLMResponse_Content resp))] ∧
          webui.written (webui.socketTurn g now req conn).2 =
            webui.written conn ++
              [doneFragment (providers.LLMResponse_Content resp)]
      | Err err =>
          (webui.handleChat g now w (post req)).2 =
            webui.EventStream [webui.DataError (Error err)] ∧
          webui.written (webui.socketTurn g now req conn).2 =
            webui.written conn ++ [errorFragment (Error err)]
      end
  end.
Proof.
  intros ->%flusher_is_flushing Hwrites Hctx.
  destruct (webui.getProvider g (requestedProvider g req)) as [p|] eqn:Hp.
  - rewrite (socketTurn_served g now req conn p Hp).
    rewrite (handleChat_served g now req p Hp).
    rewrite <- (Hctx p eq_refl).
    destruct (socketLoop_chatLoop (requestedKey now req)
                match upstream RequestContext g now req p with
                | Ok resp => [doneChunk (providers.LLMResponse_Content resp)]
                | Err err => [errorChunk "" false err]
                end "" (accepted g now req) conn Hwrites)
      as (conn' & Hloop & Hwritten & _).
    rewrite Hloop. cbn [fst snd]. rewrite Hwritten.
    destruct (upstream RequestContext g now req p) as [resp|err]; simpl.
    + rewrite append_nil_l. by split.
    + by split.
  - rewrite (socketTurn_unknown g now req conn Hp).
    rewrite (handleChat_unknown g now flushing req Hp). simpl.
    destruct (WriteJSON_ok (errorFragment (notAvailable (requestedProvider g req)))
                conn Hwrites) as (conn' & Hw & Hwritten & _).
    rewrite Hw. by split_and!.
Qed.

Lemma bindings_agree_witness :
  (webui.handleChat (sample.serving (sample.replying "hello")) "t0" flushing
     (post (sample.turn "ollama" "hi"))).1 =
    (webui.socketTurn (sample.serving (sample.replying "hello")) "t0"
       (sample.turn "ollama" "hi") sample.open).1 ∧
  (webui.handleChat (sample.serving (sample.replying "hello")) "t0" flushing
     (post (sample.turn "ollama" "hi"))).2 =
    webui.EventStream [webui.DataJSON (doneFragment "hello")] ∧
  webui.written
    (webui.socketTurn (sample.serving (sample.replying "hello")) "t0"
       (sample.turn "ollama" "hi") sample.open).2 =
    webui.written sample.open ++ [doneFragment "hello"].
Proof.
  apply (bindings_agree (sample.serving (sample.replying "hello")) "t0"
           flushing (sample.turn "ollama" "hi") sample.open).
  - reflexivity.
  - constructor.
  - intros p Hp.
    change (Some (sample.wrap "ollama" (sample.replying "hello")) = Some p) in Hp.
    injection Hp as <-. reflexivity.
Defined.

(** C9, as stated, fails when a write on the socket fails: for the same
    request and the same provider, the event-stream binding appends and
    persists the assistant Message, and the socket binding, whose write
    fails, does not. *)
Lemma bindings_differ_counterexample :
  let viaHTTP :=
    webui.handleChat (sample.serving (sample.replying "hello")) "t0" flushing
      (post (sample.turn "ollama" "hi")) in
  let viaSocket :=
    webui.socketTurn (sample.serving (sample.replying "hello")) "t0"
      (sample.turn "ollama" "hi") sample.broken in
  session.GetHistory (webui.sessions viaHTTP.1) "s1" =
    [sample.user "hi"; sample.assistant "hello"] ∧
  session.GetHistory (webui.sessions viaSocket.1) "s1" = [sample.user "hi"] ∧
  viaHTTP.2 = webui.EventStream [webui.DataJSON (doneFragment "hello")] ∧
  webui.written viaSocket.2 = [] ∧
  viaHTTP.1 ≠ viaSocket.1.
Proof.
  split_and!; [by vm_compute..|].
  intros Heq.
  assert (session.GetHistory (webui.sessions
            (webui.handleChat (sample.serving (sample.replying "hello")) "t0"
               flushing (post (sample.turn "ollama" "hi"))).1) "s1" =
          session.GetHistory (webui.sessions
            (webui.socketTurn (sample.serving (sample.replying "hello")) "t0"
               (sample.turn "ollama" "hi") sample.broken).1) "s1") as Hh
    by (by rewrite Heq).
  vm_compute in Hh. discriminate Hh.
Qed.

(** ** The registry at startup *)

Lemma initializeProviders_probe (url_error : string → option error)
    (transport : http.Request → Result http.Response) (g : webui.Globals) :
  webui.initializeProviders url_error transport g =
    if probeFailed (startupProbe url_error transport g) then g
    else
      {| webui.cfg := webui.cfg g; webui.sessions := webui.sessions g;
         webui.providerMap :=
           <["ollama" :=
               {| webui.name := "ollama";
                  webui.provider :=
                    providers.asLLMProvider url_error (startupProvider transport g);
                  webui.listModelsFn :=
                    Some (λ c, (providers.ListModels url_error
                                  (startupProvider transport g) c).2) |}]>
             (webui.providerMap g) |}.
Proof.
  unfold webui.initializeProviders, providers.CreateOllamaProvider.
  fold (startupURL g). cbn [providers.BaseURL providers.Model providers.Timeout].
  unfold startupProbe, startupProvider.
  destruct (decide (startupURL g = "")); cbn [providers.Timeout];
    cbn [providers.asLLMProvider providers.LLMProvider_ListModels];
    destruct ((providers.ListModels _ _ _).2) as [[|m models]|err];
    cbn [probeFailed length]; try done;
    destruct (decide (0 < S (length models))%nat); try done; lia.
Qed.

Lemma not_listed_unregistered (g : webui.Globals) (name : string) :
  webui.getProvider g name = None → name ∉ webui.getAvailableProviders g.
Proof.
  unfold webui.getProvider, webui.getAvailableProviders.
  intros Hnone ([k p] & -> & Hin%elem_of_map_to_list)%list_elem_of_fmap.
  simpl in Hnone. congruence.
Qed.

(** C6: when the model listing tried at startup reports an error or no
    model, [initializeProviders] registers nothing: the provider map is left
    as it was, so that, the map being empty before startup, no name is
    registered afterwards; [getProvider] finds no [ollama] and
    [getAvailableProviders] does not list it. *)
Theorem failed_probe_not_registered (url_error : string → option error)
    (transport : http.Request → Result http.Response) (g : webui.Globals) :
  probeFailed (startupProbe url_error transport g) = true →
  webui.initializeProviders url_error transport g = g ∧
  (webui.providerMap g !! "ollama" = None →
   webui.getProvider (webui.initializeProviders url_error transport g) "ollama"
     = None ∧
   "ollama" ∉
     webui.getAvailableProviders (webui.initializeProviders url_error transport g)) ∧
  (webui.providerMap g = ∅ →
   webui.getAvailableProviders (webui.initializeProviders url_error transport g)
     = [] ∧
   ∀ name,
     webui.getProvider (webui.initializeProviders url_error transport g) name
       = None).
Proof.
  intros Hfailed. rewrite initializeProviders_probe, Hfailed.
  split; [done|]. split.
  - intros Hnone. split; [done|]. by apply not_listed_unregistered.
  - intros Hempty. unfold webui.getAvailableProviders, webui.getProvider.
    rewrite Hempty. split; [by rewrite map_to_list_empty|].
    intros name. apply lookup_empty.
Qed.

Lemma failed_probe_not_registered_witness :
  webui.initializeProviders sample.anyURL sample.unreachable sample.starting =
    sample.starting ∧
  (webui.providerMap sample.starting !! "ollama" = None →
   webui.getProvider
     (webui.initializeProviders sample.anyURL sample.unreachable sample.starting)
     "ollama" = None ∧
   "ollama" ∉
     webui.getAvailableProviders
       (webui.initializeProviders sample.anyURL sample.unreachable
          sample.starting)) ∧
  (webui.providerMap sample.starting = ∅ →
   webui.getAvailableProviders
     (webui.initializeProviders sample.anyURL sample.unreachable sample.starting)
     = [] ∧
   ∀ name,
     webui.getProvider
       (webui.initializeProviders sample.anyURL sample.unreachable
          sample.starting) name = None).
Proof.
  apply (failed_probe_not_registered sample.anyURL sample.unreachable
           sample.starting).
  reflexivity.
Defined.

(** ** Calls to the upstream server *)

Lemma providers_Chat_sent (url_error : string → option error)
    (p : providers.OllamaProvider) (c : Context)
    (messages : list providers.Message) (model : string) :
  messages ≠ [] →
  url_error (providers.BaseURL (providers.config p) +:+ "/api/chat") = None →
  providers.Chat url_error p c messages model =
    ([ollamaPost p c messages model],
     match http.Transport (providers.httpClient p)
             (ollamaPost p c messages model) with
     | Err err => Err (fmt_Errorf_w "failed to send request: " err)
     | Ok resp =>
         if decide (http.StatusCode resp ≠ http.StatusOK)
         then Err (statusError resp)
         else
           match http.Decode (http.ChatValues (http.RespBody resp)) with
           | Err err => Err (fmt_Errorf_w "failed to decode response: " err)
           | Ok ollamaResp =>
               Ok {| providers.LLMResponse_Content :=
                       wire.Content (wire.RMessage ollamaResp);
                     providers.LLMResponse_FinishReason := "stop";
                     providers.LLMResponse_Usage :=
                       {| providers.PromptTokens := 0;
                          providers.CompletionTokens := 0;
                          providers.TotalTokens := 0 |} |}
           end
     end).
Proof.
  intros Hmsgs Hurl. unfold providers.Chat.
  destruct (decide (length messages = 0%nat)) as [Hlen|_].
  { by apply length_zero_iff_nil in Hlen. }
  unfold http.NewRequestWithContext, ollamaPost, http.Header_Set, statusError.
  rewrite Hurl. cbn.
  destruct (http.Transport _ _) as [resp|err]; [|done].
  destruct (decide (http.StatusCode resp ≠ http.StatusOK)); [done|].
  by destruct (http.Decode _).
Qed.

Lemma ollama_Chat_sent (url_error : string → option error)
    (p : ollama.Provider) (c : Context) (req : providers.ChatRequest) :
  providers.ChatRequest_Messages req ≠ [] →
  url_error (ollama.BaseURL (ollama.config p) +:+ "/api/chat") = None →
  ollama.Chat url_error p c req =
    ([chatPost p c req false],
     match http.Transport (ollama.httpClient p) (chatPost p c req false) with
     | Err err => Err (fmt_Errorf_w "failed to send request: " err)
     | Ok resp =>
         if decide (http.StatusCode resp ≠ http.StatusOK)
         then Err (statusError resp)
         else
           match http.Decode (http.ChatValues (http.RespBody resp)) with
           | Err err => Err (fmt_Errorf_w "failed to decode response: " err)
           | Ok ollamaResp =>
               Ok {| providers.ChatResponse_Content :=
                       wire.Content (wire.RMessage ollamaResp);
                     providers.ChatResponse_FinishReason := "stop";
                     providers.ChatResponse_Usage :=
                       {| providers.Usage_PromptTokens := 0;
                          providers.Usage_CompletionTokens := 0;
                          providers.Usage_TotalTokens := 0 |} |}
           end
     end).
Proof.
  intros Hmsgs Hurl. unfold ollama.Chat.
  destruct (decide (length (providers.ChatRequest_Messages req) = 0%nat))
    as [Hlen|_].
  { by apply length_zero_iff_nil in Hlen. }
  unfold http.NewRequestWithContext, chatPost, http.Header_Set, statusError.
  rewrite Hurl. cbn.
  destruct (http.Transport _ _) as [resp|err]; [|done].
  destruct (decide (http.StatusCode resp ≠ http.StatusOK)); [done|].
  by destruct (http.Decode _).
Qed.

Lemma decodeLoop_decode_error (deltas : list wire.ChatResponse) (err : error)
    (rest : list (Result wire.ChatResponse)) :
  Forall (λ r, wire.Done r = false) deltas →
  err ≠ io_EOF →
  ollama.decodeLoop (map Ok deltas ++ Err err :: rest) =
    map (λ r, deltaChunk (wire.Content (wire.RMessage r))) deltas ++
      [failedChunk (fmt_Errorf_w "decode error: " err)].
Proof.
  intros Hdeltas Herr. induction Hdeltas as [|r deltas Hr _ IH]; simpl.
  - by destruct (decide (err = io_EOF)).
  - by rewrite Hr, IH.
Qed.

(** C8: a call whose request cannot be sent ends with the error [failed to
    send request: ...] and no chunk at all from the streaming adapter, and
    with that error as the only chunk from the simulate-streaming wrapper;
    an answer whose status is not 200 ends the call with an error holding
    the status code and the body of the answer; a value that fails to decode
    ends the stream of the streaming adapter at once with the error chunk
    [decode error: ...], after the chunks of the values before it, and ends
    [Chat] with the error [failed to decode response: ...]. *)
Theorem upstream_failures :
  (∀ (url_error : string → option error) (p : ollama.Provider) (c : Context)
     (req : providers.ChatRequest),
     providers.ChatRequest_Messages req ≠ [] →
     url_error (ollama.BaseURL (ollama.config p) +:+ "/api/chat") = None →
     match http.Transport (ollama.httpClient p) (chatPost p c req true) with
     | Err err =>
         (ollama.StreamChat url_error p c req).2 =
           Err (errorString ("failed to send request: " +:+ Error err))
     | Ok resp =>
         (http.StatusCode resp ≠ 200 →
          (ollama.StreamChat url_error p c req).2 =
            Err (errorString
                   ("ollama returned status " +:+ pretty (http.StatusCode resp)
                      +:+ ": " +:+ http.Bytes (http.RespBody resp)))) ∧
         (http.StatusCode resp = 200 →
          ∀ deltas err rest,
            http.ChatValues (http.RespBody resp) =
              map Ok deltas ++ Err err :: rest →
            Forall (λ r, wire.Done r = false) deltas →
            err ≠ io_EOF →
            (ollama.StreamChat url_error p c req).2 =
              Ok (map (λ r, deltaChunk (wire.Content (wire.RMessage r))) deltas ++
                    [failedChunk (errorString ("decode error: " +:+ Error err))]))
     end) ∧
  (∀ (url_error : string → option error) (p : providers.OllamaProvider)
     (c : Context) (messages : list providers.Message) (model : string),
     messages ≠ [] →
     url_error (providers.BaseURL (providers.config p) +:+ "/api/chat") = None →
     match http.Transport (providers.httpClient p)
             (ollamaPost p c messages model) with
     | Err err =>
         (providers.Chat url_error p c messages model).2 =
           Err (errorString ("failed to send request: " +:+ Error err))
     | Ok resp =>
         (http.StatusCode resp ≠ 200 →
          (providers.Chat url_error p c messages model).2 =
            Err (errorString
                   ("ollama returned status " +:+ pretty (http.StatusCode resp)
                      +:+ ": " +:+ http.Bytes (http.RespBody resp)))) ∧
         (http.StatusCode resp = 200 →
          ∀ err,
            http.Decode (http.ChatValues (http.RespBody resp)) = Err err →
            (providers.Chat url_error p c messages model).2 =
              Err (errorString ("failed to decode response: " +:+ Error err)))
     end) ∧
  (∀ (p : webui.ProviderWrapper) (c : Context) (req : webui.StreamChatRequest)
     (err : error),
     webui.Chat p c (webui.StreamChatRequest_Messages req)
       (webui.StreamChatRequest_Model req) = Err err →
     webui.StreamChat p c req = Ok [errorChunk "" false err]).
Proof.
  split_and!.
  - intros url_error p c req Hmsgs Hurl.
    rewrite (ollama_StreamChat_sent url_error p c req Hmsgs Hurl). cbn [snd].
    destruct (http.Transport _ _) as [resp|err]; [|done].
    split.
    + intros Hstatus. by rewrite decide_True.
    + intros Hstatus deltas err rest Hvalues Hdeltas Herr.
      rewrite decide_False by (intros Hne; by apply Hne).
      by rewrite Hvalues, decodeLoop_decode_error.
  - intros url_error p c messages model Hmsgs Hurl.
    rewrite (providers_Chat_sent url_error p c messages model Hmsgs Hurl).
    cbn [snd].
    destruct (http.Transport _ _) as [resp|err]; [|done].
    split.
    + intros Hstatus. by rewrite decide_True.
    + intros Hstatus err Hdecode.
      rewrite decide_False by (intros Hne; by apply Hne).
      by rewrite Hdecode.
  - intros p c req err Herr. unfold webui.StreamChat.
    unfold webui.Chat in Herr. by rewrite Herr.
Qed.

Lemma upstream_failures_witness :
  (ollama.StreamChat sample.anyURL (sample.local sample.unreachable) Background
     (sample.ask "hi")).2 =
    Err (errorString
           "failed to send request: dial tcp 127.0.0.1:11434: connect: connection refused") ∧
  (ollama.StreamChat sample.anyURL
     (sample.local (sample.answering
        {| http.StatusCode := 503;
           http.RespBody := sample.body "overloaded" [] |}))
     Background (sample.ask "hi")).2 =
    Err (errorString "ollama returned status 503: overloaded") ∧
  (ollama.StreamChat sample.anyURL
     (sample.local (sample.answering
        {| http.StatusCode := 200;
           http.RespBody :=
             sample.body "" [sample.delta "par";
                             Err (errorString "unexpected EOF")] |}))
     Background (sample.ask "hi")).2 =
    Ok [deltaChunk "par";
        failedChunk (errorString "decode error: unexpected EOF")] ∧
  (providers.Chat sample.anyURL (sample.localOllama sample.unreachable)
     Background [sample.user "hi"] "").2 =
    Err (errorString
           "failed to send request: dial tcp 127.0.0.1:11434: connect: connection refused") ∧
  (providers.Chat sample.anyURL
     (sample.localOllama (sample.answering
        {| http.StatusCode := 404;
           http.RespBody := sample.body "model not found" [] |}))
     Background [sample.user "hi"] "").2 =
    Err (errorString "ollama returned status 404: model not found") ∧
  (providers.Chat sample.anyURL
     (sample.localOllama (sample.answering
        {| http.StatusCode := 200;
           http.RespBody :=
             sample.body "" [Err (errorString "invalid character '<'")] |}))
     Background [sample.user "hi"] "").2 =
    Err (errorString "failed to decode response: invalid character '<'") ∧
  webui.StreamChat
    (sample.wrap "ollama" (sample.failing (errorString "connection refused")))
    Background
    {| webui.StreamChatRequest_Messages := [sample.user "hi"];
       webui.StreamChatRequest_Model := "llama3.2" |} =
    Ok [errorChunk "" false (errorString "connection refused")].
Proof.
  destruct upstream_failures as (Hstream & Hchat & Hwrapper).
  split_and!.
  - exact (Hstream sample.anyURL (sample.local sample.unreachable) Background
             (sample.ask "hi") ltac:(discriminate) eq_refl).
  - exact (proj1
             (Hstream sample.anyURL
                (sample.local (sample.answering
                   {| http.StatusCode := 503;
                      http.RespBody := sample.body "overloaded" [] |}))
                Background (sample.ask "hi") ltac:(discriminate) eq_refl)
             ltac:(discriminate)).
  - exact (proj2
             (Hstream sample.anyURL
                (sample.local (sample.answering
                   {| http.StatusCode := 200;
                      http.RespBody :=
                        sample.body "" [sample.delta "par";
                                        Err (errorString "unexpected EOF")] |}))
                Background (sample.ask "hi") ltac:(discriminate) eq_refl)
             eq_refl [sample.partial "par"] (errorString "unexpected EOF") []
             eq_refl ltac:(by repeat constructor) ltac:(discriminate)).
  - exact (Hchat sample.anyURL (sample.localOllama sample.unreachable)
             Background [sample.user "hi"] "" ltac:(discriminate) eq_refl).
  - exact (proj1
             (Hchat sample.anyURL
                (sample.localOllama (sample.answering
                   {| http.StatusCode := 404;
                      http.RespBody := sample.body "model not found" [] |}))
                Background [sample.user "hi"] "" ltac:(discriminate) eq_refl)
             ltac:(discriminate)).
  - exact (proj2
             (Hchat sample.anyURL
                (sample.localOllama (sample.answering
                   {| http.StatusCode := 200;
                      http.RespBody :=
                        sample.body "" [Err (errorString "invalid character '<'")] |}))
                Background [sample.user "hi"] "" ltac:(discriminate) eq_refl)
             eq_refl (errorString "invalid character '<'") eq_refl).
  - exact (Hwrapper
             (sample.wrap "ollama"
                (sample.failing (errorString "connection refused")))
             Background
             {| webui.StreamChatRequest_Messages := [sample.user "hi"];
                webui.StreamChatRequest_Model := "llama3.2" |}
             (errorString "connection refused") eq_refl).
Defined.

Lemma providers_Chat_not_guard (url_error : string → option error)
    (p : providers.OllamaProvider) (c : Context)
    (messages : list providers.Message) (model : string) :
  messages ≠ [] →
  (providers.Chat url_error p c messages model).2 ≠ Err noMessages.
Proof.
  intros Hmsgs. unfold providers.Chat.
  destruct (decide (length messages = 0%nat)) as [Hlen|_].
  { by apply length_zero_iff_nil in Hlen. }
  unfold http.NewRequestWithContext.
  destruct (url_error _); [intros [= H]; discriminate H|]. cbn.
  destruct (http.Transport _ _) as [resp|err]; [|intros [= H]; discriminate H].
  destruct (decide (http.StatusCode resp ≠ http.StatusOK));
    [intros [= H]; discriminate H|].
  destruct (http.Decode _); [done|intros [= H]; discriminate H].
Qed.

Lemma ollama_Chat_not_guard (url_error : string → option error)
    (p : ollama.Provider) (c : Context) (req : providers.ChatRequest) :
  providers.ChatRequest_Messages req ≠ [] →
  (ollama.Chat url_error p c req).2 ≠ Err noMessages.
Proof.
  intros Hmsgs. unfold ollama.Chat.
  destruct (decide (length (providers.ChatRequest_Messages req) = 0%nat))
    as [Hlen|_].
  { by apply length_zero_iff_nil in Hlen. }
  unfold http.NewRequestWithContext.
  destruct (url_error _); [intros [= H]; discriminate H|]. cbn.
  destruct (http.Transport _ _) as [resp|err]; [|intros [= H]; discriminate H].
  destruct (decide (http.StatusCode resp ≠ http.StatusOK));
    [intros [= H]; discriminate H|].
  destruct (http.Decode _); [done|intros [= H]; discriminate H].
Qed.

Lemma ollama_StreamChat_not_guard (url_error : string → option error)
    (p : ollama.Provider) (c : Context) (req : providers.ChatRequest) :
  providers.ChatRequest_Messages req ≠ [] →
  (ollama.StreamChat url_error p c req).2 ≠ Err noMessages.
Proof.
  intros Hmsgs. unfold ollama.StreamChat.
  destruct (decide (length (providers.ChatRequest_Messages req) = 0%nat))
    as [Hlen|_].
  { by apply length_zero_iff_nil in Hlen. }
  unfold http.NewRequestWithContext.
  destruct (url_error _); [intros [= H]; discriminate H|]. cbn.
  destruct (http.Transport _ _) as [resp|err]; [|intros [= H]; discriminate H].
  destruct (decide (http.StatusCode resp ≠ http.StatusOK));
    [intros [= H]; discriminate H|done].
Qed.

(** C10: on an empty message list, [Chat] of both Ollama providers and
    [StreamChat] return the error [no messages provided] and send nothing
    upstream, whatever the context; on a non-empty list none of them returns
    that error, and each goes on to build its request, which it sends as its
    one upstream call when the URL is accepted. *)
Theorem empty_messages_guard (url_error : string → option error)
    (po : providers.OllamaProvider) (p : ollama.Provider) (c : Context)
    (model : string) (messages : list providers.Message) :
  (messages = [] →
   providers.Chat url_error po c messages model = ([], Err noMessages) ∧
   ollama.Chat url_error p c {| providers.ChatRequest_Messages := messages |} =
     ([], Err noMessages) ∧
   ollama.StreamChat url_error p c
     {| providers.ChatRequest_Messages := messages |} = ([], Err noMessages)) ∧
  (messages ≠ [] →
   (providers.Chat url_error po c messages model).2 ≠ Err noMessages ∧
   (ollama.Chat url_error p c
      {| providers.ChatRequest_Messages := messages |}).2 ≠ Err noMessages ∧
   (ollama.StreamChat url_error p c
      {| providers.ChatRequest_Messages := messages |}).2 ≠ Err noMessages ∧
   (url_error (providers.BaseURL (providers.config po) +:+ "/api/chat") = None →
    (providers.Chat url_error po c messages model).1 =
      [ollamaPost po c messages model]) ∧
   (url_error (ollama.BaseURL (ollama.config p) +:+ "/api/chat") = None →
    (ollama.Chat url_error p c
       {| providers.ChatRequest_Messages := messages |}).1 =
      [chatPost p c {| providers.ChatRequest_Messages := messages |} false] ∧
    (ollama.StreamChat url_error p c
       {| providers.ChatRequest_Messages := messages |}).1 =
      [chatPost p c {| providers.ChatRequest_Messages := messages |} true])).
Proof.
  split.
  - by intros ->.
  - intros Hmsgs. split_and!.
    + by apply providers_Chat_not_guard.
    + by apply ollama_Chat_not_guard.
    + by apply ollama_StreamChat_not_guard.
    + intros Hurl. by rewrite providers_Chat_sent.
    + intros Hurl. split.
      * by rewrite ollama_Chat_sent.
      * by rewrite ollama_StreamChat_sent.
Qed.

Lemma empty_messages_guard_witness :
  (providers.Chat sample.anyURL (sample.localOllama sample.unreachable)
     RequestContext [] "" = ([], Err noMessages) ∧
   ollama.Chat sample.anyURL (sample.local sample.unreachable) RequestContext
     {| providers.ChatRequest_Messages := [] |} = ([], Err noMessages) ∧
   ollama.StreamChat sample.anyURL (sample.local sample.unreachable)
     RequestContext {| providers.ChatRequest_Messages := [] |} =
     ([], Err noMessages)) ∧
  (providers.Chat sample.anyURL (sample.localOllama sample.unreachable)
     RequestContext [sample.user "hi"] "").2 ≠ Err noMessages ∧
  (ollama.StreamChat sample.anyURL (sample.local sample.unreachable)
     RequestContext (sample.ask "hi")).1 =
    [chatPost (sample.local sample.unreachable) RequestContext (sample.ask "hi")
       true].
Proof.
  destruct (empty_messages_guard sample.anyURL
              (sample.localOllama sample.unreachable)
              (sample.local sample.unreachable) RequestContext "" [])
    as [Hempty _].
  destruct (empty_messages_guard sample.anyURL
              (sample.localOllama sample.unreachable)
              (sample.local sample.unreachable) RequestContext ""
              [sample.user "hi"])
    as [_ Hpassed].
  split; [exact (Hempty eq_refl)|].
  destruct (Hpassed ltac:(discriminate)) as (Hchat & _ & _ & _ & Hsent).
  split; [exact Hchat|].
  exact (proj2 (Hsent eq_refl)).
Defined.

(** * Further properties of the code *)

(** ** The Ollama packages *)

(** X1: [New] never fails and fills in what the configuration leaves at its
    zero value: the provider it returns has a non-empty base URL and model
    and a non-zero timeout, the fields given are kept, the HTTP client gets
    the timeout of the configuration, and a configuration that went through
    [New] comes out of [New] unchanged. *)
Theorem New_fills_defaults (transport : http.Request → Result http.Response)
    (config : ollama.Config) :
  ∃ p,
    ollama.New transport config = Ok p ∧
    ollama.BaseURL (ollama.config p) ≠ "" ∧
    ollama.Model (ollama.config p) ≠ "" ∧
    ollama.Timeout (ollama.config p) ≠ 0 ∧
    (ollama.BaseURL config ≠ "" →
     ollama.BaseURL (ollama.config p) = ollama.BaseURL config) ∧
    (ollama.Model config ≠ "" →
     ollama.Model (ollama.config p) = ollama.Model config) ∧
    (ollama.Timeout config ≠ 0 →
     ollama.Timeout (ollama.config p) = ollama.Timeout config) ∧
    (ollama.BaseURL config = "" →
     ollama.BaseURL (ollama.config p) = "http://localhost:11434") ∧
    (ollama.Model config = "" → ollama.Model (ollama.config p) = "llama3.2") ∧
    (ollama.Timeout config = 0 →
     ollama.Timeout (ollama.config p) = 120 * Second) ∧
    http.Timeout (ollama.httpClient p) = ollama.Timeout (ollama.config p) ∧
    ollama.New transport (ollama.config p) = Ok p.
Proof.
  eexists. split; [reflexivity|].
  destruct config as [url model timeout]. unfold ollama.New. simpl.
  destruct (decide (url = "")) as [->|Hurl]; simpl;
    destruct (decide (model = "")) as [->|Hmodel]; simpl;
    destruct (decide (timeout = 0)) as [->|Htimeout]; simpl;
    repeat match goal with
           | |- context [decide (?x = ?y)] =>
               destruct (decide (x = y)); try done; simpl
           end;
    split_and!; done.
Qed.

Lemma New_fills_defaults_witness :
  ∃ p,
    ollama.New sample.unreachable
      {| ollama.BaseURL := ""; ollama.Model := "mistral"; ollama.Timeout := 0 |}
      = Ok p ∧
    ollama.config p =
      {| ollama.BaseURL := "http://localhost:11434"; ollama.Model := "mistral";
         ollama.Timeout := 120 * Second |}.
Proof.
  destruct (New_fills_defaults sample.unreachable
              {| ollama.BaseURL := ""; ollama.Model := "mistral";
                 ollama.Timeout := 0 |})
    as (p & Hnew & _ & _ & _ & _ & Hmodel & _ & Hurl & _ & Htimeout & _).
  exists p. split; [exact Hnew|].
  specialize (Hmodel ltac:(discriminate)). specialize (Hurl eq_refl).
  specialize (Htimeout eq_refl). simpl in *.
  destruct p as [[url model timeout] client]. simpl in *. congruence.
Defined.

(** X2: when the upstream values are deltas followed by a value with [done]
    set, the stream is the chunks of the deltas, in order and with their
    contents, followed by one done chunk; the done chunk is empty whatever
    content the done value carries, and nothing that follows the done value
    is read. *)
Theorem decodeLoop_done (deltas : list wire.ChatResponse)
    (final : wire.ChatResponse) (rest : list (Result wire.ChatResponse)) :
  Forall (λ r, wire.Done r = false) deltas →
  wire.Done final = true →
  ollama.decodeLoop (map Ok deltas ++ Ok final :: rest) =
    map (λ r, deltaChunk (wire.Content (wire.RMessage r))) deltas ++
      [closingChunk].
Proof.
  intros Hdeltas Hfinal. induction Hdeltas as [|r deltas Hr _ IH]; simpl.
  - by rewrite Hfinal.
  - by rewrite Hr, IH.
Qed.

Lemma decodeLoop_done_witness :
  ollama.decodeLoop
    (map Ok [sample.partial "hel"; sample.partial "lo"] ++
     Ok {| wire.RModel := "llama3.2"; wire.CreatedAt := 0;
           wire.RMessage := {| wire.Role := "assistant"; wire.Content := "!" |};
           wire.Done := true |} :: [sample.delta "late"]) =
    map (λ r, deltaChunk (wire.Content (wire.RMessage r)))
      [sample.partial "hel"; sample.partial "lo"] ++ [closingChunk].
Proof.
  apply (decodeLoop_done [sample.partial "hel"; sample.partial "lo"]).
  - by repeat constructor.
  - reflexivity.
Defined.


(** X3: when the request goes out and the answer has status 200, [Chat] of
    either package returns the content of the first value decoded from the
    body, with finish reason [stop] and zero token counts, having sent
    exactly one request with [stream] unset; whatever follows the first
    value in the body is not read.  [OllamaProvider.Chat] asks for the model
    of the call, or for the configured one when the call names none;
    [Provider.Chat] always asks for the configured one. *)
Theorem Chat_first_value (url_error : string → option error)
    (po : providers.OllamaProvider) (p : ollama.Provider) (c : Context)
    (messages : list providers.Message) (model : string)
    (body : http.Body) (first : wire.ChatResponse)
    (rest : list (Result wire.ChatResponse)) :
  messages ≠ [] →
  http.ChatValues body = Ok first :: rest →
  (url_error (providers.BaseURL (providers.config po) +:+ "/api/chat") = None →
   http.Transport (providers.httpClient po) (ollamaPost po c messages model) =
     Ok {| http.StatusCode := 200; http.RespBody := body |} →
   providers.Chat url_error po c messages model =
     ([ollamaPost po c messages model],
      Ok {| providers.LLMResponse_Content := wire.Content (wire.RMessage first);
            providers.LLMResponse_FinishReason := "stop";
            providers.LLMResponse_Usage :=
              {| providers.PromptTokens := 0; providers.CompletionTokens := 0;
                 providers.TotalTokens := 0 |} |}) ∧
   (wire.Model <$> http.ReqBody (ollamaPost po c messages model)) =
     Some (if decide (model = "") then providers.Model (providers.config po)
           else model)) ∧
  (url_error (ollama.BaseURL (ollama.config p) +:+ "/api/chat") = None →
   http.Transport (ollama.httpClient p)
     (chatPost p c {| providers.ChatRequest_Messages := messages |} false) =
     Ok {| http.StatusCode := 200; http.RespBody := body |} →
   ollama.Chat url_error p c {| providers.ChatRequest_Messages := messages |} =
     ([chatPost p c {| providers.ChatRequest_Messages := messages |} false],
      Ok {| providers.ChatResponse_Content := wire.Content (wire.RMessage first);
            providers.ChatResponse_FinishReason := "stop";
            providers.ChatResponse_Usage :=
              {| providers.Usage_PromptTokens := 0;
                 providers.Usage_CompletionTokens := 0;
                 providers.Usage_TotalTokens := 0 |} |}) ∧
   (wire.Model <$>
      http.ReqBody
        (chatPost p c {| providers.ChatRequest_Messages := messages |} false)) =
     Some (ollama.Model (ollama.config p))).
Proof.
  intros Hmsgs Hvalues. split.
  - intros Hurl Hresp. split; [|done].
    rewrite (providers_Chat_sent url_error po c messages model Hmsgs Hurl), Hresp.
    simpl. by rewrite Hvalues.
  - intros Hurl Hresp. split; [|done].
    rewrite (ollama_Chat_sent url_error p c
               {| providers.ChatRequest_Messages := messages |} Hmsgs Hurl), Hresp.
    simpl. by rewrite Hvalues.
Qed.

Lemma Chat_first_value_witness :
  providers.Chat sample.anyURL
    (sample.localOllama (sample.answering
       {| http.StatusCode := 200;
          http.RespBody := sample.body "" [sample.delta "hello"; sample.delta "x"] |}))
    Background [sample.user "hi"] "mistral" =
    ([ollamaPost
        (sample.localOllama (sample.answering
           {| http.StatusCode := 200;
              http.RespBody :=
                sample.body "" [sample.delta "hello"; sample.delta "x"] |}))
        Background [sample.user "hi"] "mistral"],
     Ok {| providers.LLMResponse_Content := "hello";
           providers.LLMResponse_FinishReason := "stop";
           providers.LLMResponse_Usage :=
             {| providers.PromptTokens := 0; providers.CompletionTokens := 0;
                providers.TotalTokens := 0 |} |}) ∧
  (ollama.Chat sample.anyURL
     (sample.local (sample.answering
        {| http.StatusCode := 200;
           http.RespBody := sample.body "" [sample.delta "hello"; sample.delta "x"] |}))
     Background (sample.ask "hi")).2 =
    Ok {| providers.ChatResponse_Content := "hello";
          providers.ChatResponse_FinishReason := "stop";
          providers.ChatResponse_Usage :=
            {| providers.Usage_PromptTokens := 0;
               providers.Usage_CompletionTokens := 0;
               providers.Usage_TotalTokens := 0 |} |}.
Proof.
  destruct (Chat_first_value sample.anyURL
              (sample.localOllama (sample.answering
                 {| http.StatusCode := 200;
                    http.RespBody :=
                      sample.body "" [sample.delta "hello"; sample.delta "x"] |}))
              (sample.local (sample.answering
                 {| http.StatusCode := 200;
                    http.RespBody :=
                      sample.body "" [sample.delta "hello"; sample.delta "x"] |}))
              Background [sample.user "hi"] "mistral"
              (sample.body "" [sample.delta "hello"; sample.delta "x"])
              (sample.partial "hello") [sample.delta "x"]
              ltac:(discriminate) eq_refl) as [Hpo Hp].
  split.
  - exact (proj1 (Hpo eq_refl eq_refl)).
  - exact (f_equal snd (proj1 (Hp eq_refl eq_refl))).
Defined.

(** ** The registry *)

Lemma startupURL_nonempty (g : webui.Globals) : startupURL g ≠ "".
Proof. unfold startupURL. by destruct (decide _). Qed.

Lemma startupProbe_listing (url_error : string → option error)
    (transport : http.Request → Result http.Response) (g : webui.Globals) :
  startupProbe url_error transport g =
    match url_error (startupURL g +:+ "/api/tags") with
    | Some err => Err (fmt_Errorf_w "failed to create request: " err)
    | None =>
        match transport (startupListing g) with
        | Err err => Err (fmt_Errorf_w "failed to send request: " err)
        | Ok resp =>
            if decide (http.StatusCode resp ≠ http.StatusOK) then
              Err (errorString
                     ("ollama returned status " +:+ pretty (http.StatusCode resp)))
            else
              match http.Tags (http.RespBody resp) with
              | Err err => Err (fmt_Errorf_w "failed to decode response: " err)
              | Ok models => Ok models
              end
        end
    end.
Proof.
  unfold startupProbe, providers.ListModels, startupProvider,
    http.NewRequestWithContext, startupListing.
  cbn [providers.BaseURL providers.config providers.httpClient].
  destruct (decide (startupURL g = "")) as [Hempty|_].
  { by apply startupURL_nonempty in Hempty. }
  destruct (url_error _); [done|]. cbn.
  destruct (transport _) as [resp|err]; [|done].
  destruct (decide (http.StatusCode resp ≠ http.StatusOK)); [done|].
  by destruct (http.Tags _).
Qed.

(** X4: after [initializeProviders] on a registry without [ollama], the
    provider [ollama] is registered if and only if the URL of the listing is
    accepted and the server at the configured base URL answers the request
    [GET <base>/api/tags] with status 200 and a body that decodes to at
    least one model; the base URL is [cfg.Providers.VLLM.APIBase], or
    [http://localhost:11434] when that is empty. *)
Theorem startup_registers_iff (url_error : string → option error)
    (transport : http.Request → Result http.Response) (g : webui.Globals) :
  webui.providerMap g !! "ollama" = None →
  is_Some (webui.getProvider (webui.initializeProviders url_error transport g)
             "ollama") ↔
  url_error (startupURL g +:+ "/api/tags") = None ∧
  ∃ resp models,
    transport (startupListing g) = Ok resp ∧
    http.StatusCode resp = 200 ∧
    http.Tags (http.RespBody resp) = Ok models ∧
    models ≠ [].
Proof.
  intros Hfresh. rewrite initializeProviders_probe, startupProbe_listing.
  unfold webui.getProvider.
  destruct (url_error _) as [err|]; simpl.
  { rewrite Hfresh. split; [by intros [? ?]|by intros [? _]]. }
  destruct (transport (startupListing g)) as [resp|err]; simpl.
  2:{ rewrite Hfresh. split; [by intros [? ?]|].
      by intros (_ & ? & ? & ? & _). }
  destruct (decide (http.StatusCode resp ≠ http.StatusOK)) as [Hne|Hok]; simpl.
  { rewrite Hfresh. split; [by intros [? ?]|].
    intros (_ & resp' & models & [= <-] & Hstatus & _). by destruct Hne. }
  apply dec_stable in Hok.
  destruct (http.Tags (http.RespBody resp)) as [[|m models]|err] eqn:Htags;
    simpl.
  - rewrite Hfresh. split; [by intros [? ?]|].
    intros (_ & resp' & models & [= <-] & _ & Hm & Hne). congruence.
  - rewrite lookup_insert_eq. split; [|done]. intros _. split; [done|].
    exists resp, (m :: models). by split_and!.
  - rewrite Hfresh. split; [by intros [? ?]|].
    intros (_ & resp' & models & [= <-] & _ & Hm & _). congruence.
Qed.

Lemma startup_registers_iff_witness :
  is_Some
    (webui.getProvider
       (webui.initializeProviders sample.anyURL
          (sample.answering
             {| http.StatusCode := 200;
                http.RespBody :=
                  {| http.Bytes := ""; http.ChatValues := [];
                     http.Tags := Ok ["llama3.2"] |} |})
          sample.starting) "ollama") ↔
  sample.anyURL (startupURL sample.starting +:+ "/api/tags") = None ∧
  ∃ resp models,
    sample.answering
      {| http.StatusCode := 200;
         http.RespBody :=
           {| http.Bytes := ""; http.ChatValues := [];
              http.Tags := Ok ["llama3.2"] |} |}
      (startupListing sample.starting) = Ok resp ∧
    http.StatusCode resp = 200 ∧
    http.Tags (http.RespBody resp) = Ok models ∧
    models ≠ [].
Proof.
  apply (startup_registers_iff sample.anyURL _ sample.starting). reflexivity.
Defined.

(** X5: [getAvailableProviders] lists exactly the names [getProvider]
    finds, each of them once. *)
Theorem available_iff_registered (g : webui.Globals) :
  NoDup (webui.getAvailableProviders g) ∧
  ∀ name,
    name ∈ webui.getAvailableProviders g ↔ is_Some (webui.getProvider g name).
Proof.
  unfold webui.getAvailableProviders, webui.getProvider. split.
  - apply NoDup_fst_map_to_list.
  - intros name. rewrite list_elem_of_fmap. split.
    + intros ([k p] & -> & Hin%elem_of_map_to_list). by exists p.
    + intros [p Hp]. exists (name, p). split; [done|].
      by apply elem_of_map_to_list.
Qed.


Lemma initializeProviders_wellNamed (url_error : string → option error)
    (transport : http.Request → Result http.Response) (g : webui.Globals) :
  wellNamed g → wellNamed (webui.initializeProviders url_error transport g).
Proof.
  intros Hg. rewrite initializeProviders_probe.
  destruct (probeFailed _); [done|].
  intros key p. simpl. rewrite lookup_insert.
  case_decide as Hkey; [|apply Hg].
  by intros [= <-].
Qed.

(** ** What the handlers leave alone *)

Lemma socketTurn_keeps (g : webui.Globals) (now : string)
    (req : webui.ChatRequest) (conn : webui.Conn) :
  webui.cfg (webui.socketTurn g now req conn).1 = webui.cfg g ∧
  webui.providerMap (webui.socketTurn g now req conn).1 = webui.providerMap g.
Proof.
  destruct (webui.getProvider g (requestedProvider g req)) as [p|] eqn:Hp.
  - rewrite (socketTurn_served g now req conn p Hp).
    by destruct (webui.socketLoop _ _ _ _ _).
  - by rewrite (socketTurn_unknown g now req conn Hp).
Qed.

Lemma socketSession_keeps (g : webui.Globals)
    (incoming : list (string * Result webui.ChatRequest)) (conn : webui.Conn) :
  webui.cfg (webui.socketSession g incoming conn).1 = webui.cfg g ∧
  webui.providerMap (webui.socketSession g incoming conn).1 = webui.providerMap g.
Proof.
  revert g conn. induction incoming as [|[now [req|err]] incoming IH];
    intros g conn; simpl; [done| |done].
  destruct (socketTurn_keeps g now req conn) as [Hcfg Hmap].
  destruct (webui.socketTurn g now req conn) as [g' conn']. simpl in *.
  destruct (IH g' conn') as [Hcfg' Hmap']. by rewrite Hcfg', Hmap'.
Qed.

Lemma handleChat_keeps (g : webui.Globals) (now : string)
    (w : webui.ResponseWriter) (r : webui.Request) :
  webui.cfg (webui.handleChat g now w r).1 = webui.cfg g ∧
  webui.providerMap (webui.handleChat g now w r).1 = webui.providerMap g.
Proof.
  unfold webui.handleChat.
  destruct (decide (webui.Request_Method r ≠ http.MethodPost)); [done|].
  destruct (webui.Request_Body r) as [req|]; [|done].
  destruct (webui.getProvider g _); [|done].
  destruct (webui.appendMessages _ _ _ _) as [history sm].
  destruct (negb (webui.isFlusher w)); [done|].
  destruct (webui.StreamChat _ _ _); [|done].
  by destruct (webui.chatLoop _ _ _ _).
Qed.

(** X7: neither binding ever changes the configuration or the registry:
    whatever the request, the writer, the reads and the socket, the provider
    map and the configuration after [handleChat] and after
    [handleWebSocket] are those before. *)
Theorem handlers_keep_registry :
  (∀ (g : webui.Globals) (now : string) (w : webui.ResponseWriter)
     (r : webui.Request),
     webui.cfg (webui.handleChat g now w r).1 = webui.cfg g ∧
     webui.providerMap (webui.handleChat g now w r).1 = webui.providerMap g) ∧
  (∀ (g : webui.Globals) (upgrade : Result webui.Conn)
     (incoming : list (string * Result webui.ChatRequest)),
     webui.cfg (webui.handleWebSocket g upgrade incoming).1 = webui.cfg g ∧
     webui.providerMap (webui.handleWebSocket g upgrade incoming).1 =
       webui.providerMap g).
Proof.
  split.
  - apply handleChat_keeps.
  - intros g [conn|err] incoming; simpl; [|done].
    destruct (socketSession_keeps g incoming conn) as [Hcfg Hmap].
    by destruct (webui.socketSession g incoming conn).
Qed.

(** X8: a request that [handleChat] turns down with status 405 or 400 (wrong
    method, undecodable body, provider not available) changes nothing.  The
    status 500 is only given for a writer that cannot flush, and only after
    the user Messages of the request were appended to the session: the
    globals then hold the store with these Messages and no answer. *)
Theorem handleChat_rejections (g g' : webui.Globals) (now msg : string)
    (code : Z) (w : webui.ResponseWriter) (r : webui.Request) :
  webui.handleChat g now w r = (g', webui.HttpError msg code) →
  (code = 405 ∧ webui.Request_Method r ≠ "POST" ∧ g' = g) ∨
  (code = 400 ∧ g' = g) ∨
  (code = 500 ∧ msg = "Streaming not supported" ∧ webui.isFlusher w = false ∧
   ∃ req, webui.Request_Body r = Ok req ∧
          is_Some (webui.getProvider g (requestedProvider g req)) ∧
          g' = webui.set_sessions g (accepted g now req)).
Proof.
  unfold webui.handleChat.
  destruct (decide (webui.Request_Method r ≠ http.MethodPost)) as [Hmethod|_].
  { intros [= <- <- <-]. left. done. }
  destruct (webui.Request_Body r) as [req|]; [|intros [= <- <- <-]; right; left; done].
  fold (requestedKey now req). fold (requestedProvider g req).
  destruct (webui.getProvider g (requestedProvider g req)) as [p|] eqn:Hp;
    [|intros [= <- <- <-]; right; left; done].
  unfold accepted.
  destruct (webui.appendMessages _ _ _ _) as [history sm] eqn:Happended.
  destruct (webui.isFlusher w); simpl.
  - by destruct (webui.chatLoop _ _ _ _).
  - intros [= <- <- <-]. right; right. split_and!; try done.
    exists req. split_and!; try done. by rewrite Happended.
Qed.

Lemma handleChat_rejections_witness :
  webui.isFlusher {| webui.isFlusher := false |} = false ∧
  ∃ req,
    webui.Request_Body (post (sample.turn "ollama" "hi")) = Ok req ∧
    is_Some (webui.getProvider (sample.serving (sample.replying "hello"))
               (requestedProvider (sample.serving (sample.replying "hello")) req)) ∧
    (webui.handleChat (sample.serving (sample.replying "hello")) "t0"
       {| webui.isFlusher := false |} (post (sample.turn "ollama" "hi"))).1 =
      webui.set_sessions (sample.serving (sample.replying "hello"))
        (accepted (sample.serving (sample.replying "hello")) "t0" req).
Proof.
  destruct (handleChat_rejections (sample.serving (sample.replying "hello"))
              (webui.handleChat (sample.serving (sample.replying "hello")) "t0"
                 {| webui.isFlusher := false |}
                 (post (sample.turn "ollama" "hi"))).1
              "t0" "Streaming not supported" 500 {| webui.isFlusher := false |}
              (post (sample.turn "ollama" "hi")) eq_refl)
    as [[Hcode _]|[[Hcode _]|(_ & _ & Hflush & Hreq)]].
  - discriminate Hcode.
  - discriminate Hcode.
  - split; [exact Hflush | exact Hreq].
Defined.


(** ** What reaches the provider *)

Lemma prompt_composition (g : webui.Globals) (now : string)
    (req : webui.ChatRequest) :
  prompt g now req =
    (if decide (webui.SystemPrompt req ≠ "")
     then [ {| providers.Message_Role := "system";
               providers.Message_Content := webui.SystemPrompt req |} ]
     else []) ++
    session.GetHistory (webui.sessions g) (requestedKey now req) ++
    map asMessage (webui.Messages req).
Proof.
  unfold prompt. rewrite appendMessages_history.
  by destruct (decide (webui.SystemPrompt req ≠ "")).
Qed.

(** X9: the provider of a turn is called with the system prompt of the
    request first when there is one, then the history the session store
    returns for the session, then the messages of the request in their
    order, and with the model of the request, or the default model of the
    provider when the request names none; the event-stream binding calls it
    under the context of the request and the socket binding under the
    background context, and what each binding sends is made of the answer
    to that call alone. *)
Theorem provider_call (g : webui.Globals) (now : string)
    (req : webui.ChatRequest) (conn : webui.Conn) (p : webui.ProviderWrapper) :
  webui.getProvider g (requestedProvider g req) = Some p →
  let sent :=
    (if decide (webui.SystemPrompt req ≠ "")
     then [ {| providers.Message_Role := "system";
               providers.Message_Content := webui.SystemPrompt req |} ]
     else []) ++
    session.GetHistory (webui.sessions g) (requestedKey now req) ++
    map asMessage (webui.Messages req) in
  let model :=
    if decide (webui.Model req = "")
    then providers.LLMProvider_GetDefaultModel (webui.provider p)
    else webui.Model req in
  (webui.handleChat g now flushing (post req)).2 =
    webui.EventStream
      [ match providers.LLMProvider_Chat (webui.provider p) RequestContext sent
                model with
        | Ok resp =>
            webui.DataJSON (doneFragment (providers.LLMResponse_Content resp))
        | Err err => webui.DataError (Error err)
        end ] ∧
  (Forall (λ e, e = None) (webui.writeErrs conn) →
   webui.written (webui.socketTurn g now req conn).2 =
     webui.written conn ++
       [ match providers.LLMProvider_Chat (webui.provider p) Background sent
                 model with
         | Ok resp => doneFragment (providers.LLMResponse_Content resp)
         | Err err => errorFragment (Error err)
         end ]).
Proof.
  intros Hp sent model.
  assert (upstream RequestContext g now req p =
          providers.LLMProvider_Chat (webui.provider p) RequestContext sent model)
    as Hhttp.
  { unfold upstream. by rewrite prompt_composition. }
  assert (upstream Background g now req p =
          providers.LLMProvider_Chat (webui.provider p) Background sent model)
    as Hsocket.
  { unfold upstream. by rewrite prompt_composition. }
  split.
  - rewrite (handleChat_served g now req p Hp), Hhttp.
    by destruct (providers.LLMProvider_Chat _ _ _ _).
  - intros Hwrites.
    rewrite (socketTurn_served g now req conn p Hp), Hsocket.
    destruct (socketLoop_chatLoop (requestedKey now req)
                match providers.LLMProvider_Chat (webui.provider p) Background
                        sent model with
                | Ok resp => [doneChunk (providers.LLMResponse_Content resp)]
                | Err err => [errorChunk "" false err]
                end "" (accepted g now req) conn Hwrites)
      as (conn' & Hloop & Hwritten & _).
    rewrite Hloop. cbn [snd]. rewrite Hwritten. clear.
    by destruct (providers.LLMProvider_Chat (webui.provider p) Background sent
                   model).
Qed.

Lemma provider_call_witness :
  (webui.handleChat (sample.serving (sample.replying "hello")) "t0" flushing
     (post (sample.turn "ollama" "hi"))).2 =
    webui.EventStream [webui.DataJSON (doneFragment "hello")] ∧
  (Forall (λ e, e = None) (webui.writeErrs sample.open) →
   webui.written
     (webui.socketTurn (sample.serving (sample.replying "hello")) "t0"
        (sample.turn "ollama" "hi") sample.open).2 =
     webui.written sample.open ++ [doneFragment "hello"]).
Proof.
  apply (provider_call (sample.serving (sample.replying "hello")) "t0"
           (sample.turn "ollama" "hi") sample.open
           (sample.wrap "ollama" (sample.replying "hello"))).
  reflexivity.
Defined.

Lemma handleChat_frame (g : webui.Globals) (now : string)
    (req : webui.ChatRequest) (p : webui.ProviderWrapper) :
  webui.getProvider g (requestedProvider g req) = Some p →
  (webui.handleChat g now flushing (post req)).2 =
    webui.EventStream
      [ match providers.LLMProvider_Chat (webui.provider p) RequestContext
                ((if decide (webui.SystemPrompt req ≠ "")
                  then [ {| providers.Message_Role := "system";
                            providers.Message_Content := webui.SystemPrompt req |} ]
                  else []) ++
                 session.GetHistory (webui.sessions g) (requestedKey now req) ++
                 map asMessage (webui.Messages req))
                (if decide (webui.Model req = "")
                 then providers.LLMProvider_GetDefaultModel (webui.provider p)
                 else webui.Model req) with
        | Ok resp =>
            webui.DataJSON (doneFragment (providers.LLMResponse_Content resp))
        | Err err => webui.DataError (Error err)
        end ].
Proof.
  intros Hp. rewrite (handleChat_served g now req p Hp).
  unfold upstream. rewrite prompt_composition. unfold modelFor, webui.GetDefaultModel.
  by destruct (providers.LLMProvider_Chat _ _ _ _).
Qed.

(** X6: [initializeProviders] stores the wrapper it registers under the name
    the wrapper carries.  In a registry where every wrapper is stored under
    its own name, a turn that names no provider is served by the provider
    registered as [ollama]: the one frame [handleChat] sends is made of the
    answer of that provider to the prompt of the turn (a data frame with the
    answer and the done marker, or the error line of its failure).  When
    [ollama] is not registered, and no provider is registered under the
    empty name, such a turn is turned down with [Provider '' not available]. *)
Theorem unnamed_provider_is_default (url_error : string → option error)
    (transport : http.Request → Result http.Response) (g : webui.Globals)
    (now : string) (req : webui.ChatRequest) :
  (wellNamed g → wellNamed (webui.initializeProviders url_error transport g)) ∧
  (wellNamed g → webui.Provider req = "" →
   ∀ p, webui.getProvider g "ollama" = Some p →
     (webui.handleChat g now flushing (post req)).2 =
       webui.EventStream
         [ match providers.LLMProvider_Chat (webui.provider p) RequestContext
                   ((if decide (webui.SystemPrompt req ≠ "")
                     then [ {| providers.Message_Role := "system";
                               providers.Message_Content :=
                                 webui.SystemPrompt req |} ]
                     else []) ++
                    session.GetHistory (webui.sessions g)
                      (requestedKey now req) ++
                    map asMessage (webui.Messages req))
                   (if decide (webui.Model req = "")
                    then providers.LLMProvider_GetDefaultModel (webui.provider p)
                    else webui.Model req) with
           | Ok resp =>
               webui.DataJSON
                 (doneFragment (providers.LLMResponse_Content resp))
           | Err err => webui.DataError (Error err)
           end ]) ∧
  (webui.Provider req = "" → webui.getProvider g "ollama" = None →
   webui.getProvider g "" = None →
   webui.handleChat g now flushing (post req) =
     (g, webui.HttpError "Provider '' not available" 400)).
Proof.
  split_and!.
  - apply initializeProviders_wellNamed.
  - intros Hg Hreq p Hp. apply handleChat_frame.
    unfold requestedProvider, webui.getDefaultProvider. rewrite Hreq. simpl.
    unfold webui.getProvider in Hp. rewrite Hp.
    unfold webui.Name. by rewrite (Hg "ollama" p Hp).
  - intros Hreq Hnone Hempty.
    assert (requestedProvider g req = "") as Hname.
    { unfold requestedProvider, webui.getDefaultProvider. rewrite Hreq. simpl.
      unfold webui.getProvider in Hnone. by rewrite Hnone. }
    rewrite handleChat_unknown; rewrite Hname; done.
Qed.

Lemma unnamed_provider_is_default_witness :
  (webui.handleChat (sample.serving (sample.replying "hello")) "t0" flushing
     (post (sample.turn "" "hi"))).2 =
    webui.EventStream [webui.DataJSON (doneFragment "hello")] ∧
  webui.handleChat sample.starting "t0" flushing (post (sample.turn "" "hi")) =
    (sample.starting, webui.HttpError "Provider '' not available" 400).
Proof.
  destruct (unnamed_provider_is_default sample.anyURL sample.unreachable
              (sample.serving (sample.replying "hello")) "t0"
              (sample.turn "" "hi")) as (_ & Hserved & _).
  destruct (unnamed_provider_is_default sample.anyURL sample.unreachable
              sample.starting "t0" (sample.turn "" "hi")) as (_ & _ & Hrejected).
  split.
  - apply (Hserved ltac:(intros key p Hkey; unfold sample.serving in Hkey;
                         simpl in Hkey;
                         apply lookup_singleton_Some in Hkey as [<- <-];
                         reflexivity)
             eq_refl (sample.wrap "ollama" (sample.replying "hello")) eq_refl).
  - apply Hrejected; reflexivity.
Defined.

(** ** One socket connection *)

Lemma socketSession_app (g : webui.Globals)
    (turns : list (string * webui.ChatRequest))
    (incoming : list (string * Result webui.ChatRequest)) (conn : webui.Conn) :
  webui.socketSession g (asReads turns ++ incoming) conn =
    webui.socketSession (webui.socketSession g (asReads turns) conn).1 incoming
      (webui.socketSession g (asReads turns) conn).2.
Proof.
  revert g conn. induction turns as [|[now req] turns IH]; intros g conn; simpl.
  - done.
  - destruct (webui.socketTurn g now req conn) as [g' conn']. apply IH.
Qed.

Lemma socketTurn_answer (g : webui.Globals) (now : string)
    (req : webui.ChatRequest) (conn : webui.Conn) :
  Forall (λ e, e = None) (webui.writeErrs conn) →
  ∃ conn',
    webui.socketTurn g now req conn = (afterTurn Background g now req, conn') ∧
    webui.written conn' =
      webui.written conn ++ [answerFrame Background g now req] ∧
    Forall (λ e, e = None) (webui.writeErrs conn').
Proof.
  intros Hwrites. unfold afterTurn, answerFrame.
  destruct (webui.getProvider g (requestedProvider g req)) as [p|] eqn:Hp.
  - rewrite (socketTurn_served g now req conn p Hp).
    destruct (socketLoop_chatLoop (requestedKey now req)
                match upstream Background g now req p with
                | Ok resp => [doneChunk (providers.LLMResponse_Content resp)]
                | Err err => [errorChunk "" false err]
                end "" (accepted g now req) conn Hwrites)
      as (conn' & Hloop & Hwritten & Hwrites').
    exists conn'. rewrite Hloop, Hwritten.
    destruct (upstream Background g now req p) as [resp|err]; simpl.
    + by rewrite append_nil_l.
    + done.
  - rewrite (socketTurn_unknown g now req conn Hp).
    destruct (WriteJSON_ok (errorFragment (notAvailable (requestedProvider g req)))
                conn Hwrites) as (conn' & Hw & Hwritten & Hwrites').
    exists conn'. by rewrite Hw.
Qed.

(** X10: on a socket that takes every write, every request read before the
    first read that fails is answered with exactly one frame, in the order
    of the reads: the error frame [Provider '<name>' not available] when its
    provider is not registered, which does not end the connection, and
    otherwise the answer of its provider with the done marker, or the error
    of the provider.  Each turn starts from the globals the turn before it
    left (the user Messages of the request appended and a non-empty answer
    committed), and nothing read after a failed read is served.  When the
    upgrade fails nothing is served. *)
Theorem socket_serves_in_order (g : webui.Globals)
    (turns : list (string * webui.ChatRequest))
    (incoming : list (string * Result webui.ChatRequest)) (conn : webui.Conn) :
  (Forall (λ e, e = None) (webui.writeErrs conn) →
   endsOrFails incoming →
   (webui.socketSession g (asReads turns ++ incoming) conn).1 =
     afterTurns g turns ∧
   webui.written (webui.socketSession g (asReads turns ++ incoming) conn).2 =
     webui.written conn ++ answerFrames g turns) ∧
  (∀ err, webui.handleWebSocket g (Err err) incoming = (g, None)).
Proof.
  split; [|done].
  intros Hwrites Hincoming. revert g conn Hwrites.
  induction turns as [|[now req] turns IH]; intros g conn Hwrites; simpl.
  - rewrite app_nil_r.
    by destruct Hincoming as [->|(now & err & rest & ->)].
  - destruct (socketTurn_answer g now req conn Hwrites)
      as (conn' & -> & Hwritten & Hwrites').
    destruct (IH (afterTurn Background g now req) conn' Hwrites')
      as [Hglobals Hframes].
    split; [done|]. by rewrite Hframes, Hwritten, <- app_assoc.
Qed.

Lemma socket_serves_in_order_witness :
  (webui.socketSession (sample.serving (sample.replying "hello"))
     (asReads [("t0", sample.turn "gpt-nope" "hi");
               ("t1", sample.turn "ollama" "hi")] ++
      [("t2", Err (errorString "close 1001 (going away)"));
       ("t3", Ok (sample.turn "ollama" "late"))]) sample.open).1 =
    afterTurns (sample.serving (sample.replying "hello"))
      [("t0", sample.turn "gpt-nope" "hi"); ("t1", sample.turn "ollama" "hi")] ∧
  webui.written
    (webui.socketSession (sample.serving (sample.replying "hello"))
       (asReads [("t0", sample.turn "gpt-nope" "hi");
                 ("t1", sample.turn "ollama" "hi")] ++
        [("t2", Err (errorString "close 1001 (going away)"));
         ("t3", Ok (sample.turn "ollama" "late"))]) sample.open).2 =
    webui.written sample.open ++
      answerFrames (sample.serving (sample.replying "hello"))
        [("t0", sample.turn "gpt-nope" "hi"); ("t1", sample.turn "ollama" "hi")].
Proof.
  apply (proj1 (socket_serves_in_order
                  (sample.serving (sample.replying "hello"))
                  [("t0", sample.turn "gpt-nope" "hi");
                   ("t1", sample.turn "ollama" "hi")]
                  [("t2", Err (errorString "close 1001 (going away)"));
                   ("t3", Ok (sample.turn "ollama" "late"))] sample.open)).
  - constructor.
  - right. by eexists _, _, _.
Defined.

Lemma socketTurn_as_handleChat (g : webui.Globals) (now : string)
    (req : webui.ChatRequest) (conn : webui.Conn) :
  Forall (λ e, e = None) (webui.writeErrs conn) →
  (∀ p, webui.getProvider g (requestedProvider g req) = Some p → contextBlind p) →
  ∃ conn',
    webui.socketTurn g now req conn =
      ((webui.handleChat g now flushing (post req)).1, conn') ∧
    webui.written conn' =
      webui.written conn ++
        socketFrames (webui.handleChat g now flushing (post req)).2 ∧
    Forall (λ e, e = None) (webui.writeErrs conn').
Proof.
  intros Hwrites Hblind.
  destruct (webui.getProvider g (requestedProvider g req)) as [p|] eqn:Hp.
  - rewrite (socketTurn_served g now req conn p Hp).
    rewrite (handleChat_served g now req p Hp).
    assert (upstream Background g now req p = upstream RequestContext g now req p)
      as -> by (unfold upstream; by rewrite (Hblind p eq_refl)).
    destruct (socketLoop_chatLoop (requestedKey now req)
                match upstream RequestContext g now req p with
                | Ok resp => [doneChunk (providers.LLMResponse_Content resp)]
                | Err err => [errorChunk "" false err]
                end "" (accepted g now req) conn Hwrites)
      as (conn' & Hloop & Hwritten & Hwrites').
    exists conn'. rewrite Hloop, Hwritten.
    destruct (upstream RequestContext g now req p) as [resp|err]; simpl.
    + by rewrite append_nil_l.
    + done.
  - rewrite (socketTurn_unknown g now req conn Hp).
    rewrite (handleChat_unknown g now flushing req Hp). simpl.
    destruct (WriteJSON_ok (errorFragment (notAvailable (requestedProvider g req)))
                conn Hwrites) as (conn' & Hw & Hwritten & Hwrites').
    exists conn'. by rewrite Hw.
Qed.

(** X11: on a socket that takes every write, with providers that answer
    alike under both contexts, the turns of one socket connection leave the
    globals that the same turns leave when each is a request of its own to
    [handleChat] on a writer that can flush.  The socket is sent, in order,
    one frame for each frame of the replies to these requests: for a data
    frame the same [ChatResponse]; for an error line, which [handleChat]
    formats by hand without escaping, and for an HTTP error reply, a JSON
    frame holding the same message in [Error]. *)
Theorem socket_session_as_requests (g : webui.Globals)
    (turns : list (string * webui.ChatRequest)) (conn : webui.Conn) :
  Forall (λ e, e = None) (webui.writeErrs conn) →
  (∀ key p, webui.providerMap g !! key = Some p → contextBlind p) →
  (webui.socketSession g (asReads turns) conn).1 = (httpTurns g turns).1 ∧
  webui.written (webui.socketSession g (asReads turns) conn).2 =
    webui.written conn ++ flat_map socketFrames (httpTurns g turns).2.
Proof.
  revert g conn. induction turns as [|[now req] turns IH];
    intros g conn Hwrites Hblind; simpl.
  - by rewrite app_nil_r.
  - destruct (socketTurn_as_handleChat g now req conn Hwrites)
      as (conn' & Hturn & Hwritten & Hwrites').
    { intros p Hp. by apply (Hblind _ p Hp). }
    rewrite Hturn.
    destruct (handleChat_keeps g now flushing (post req)) as [_ Hmap].
    destruct (webui.handleChat g now flushing (post req)) as [g1 reply].
    simpl in *.
    destruct (IH g1 conn' Hwrites') as [Hglobals Hfragments].
    { intros key p. rewrite Hmap. apply Hblind. }
    destruct (httpTurns g1 turns) as [g2 replies]. simpl in *.
    split; [done|]. by rewrite Hfragments, Hwritten, <- app_assoc.
Qed.

Lemma socket_session_as_requests_witness :
  (webui.socketSession (sample.serving (sample.replying "hello"))
     (asReads [("t0", sample.turn "ollama" "hi");
               ("t1", sample.turn "gpt-nope" "again")]) sample.open).1 =
    (httpTurns (sample.serving (sample.replying "hello"))
       [("t0", sample.turn "ollama" "hi");
        ("t1", sample.turn "gpt-nope" "again")]).1 ∧
  webui.written
    (webui.socketSession (sample.serving (sample.replying "hello"))
       (asReads [("t0", sample.turn "ollama" "hi");
                 ("t1", sample.turn "gpt-nope" "again")]) sample.open).2 =
    webui.written sample.open ++
      flat_map socketFrames
        (httpTurns (sample.serving (sample.replying "hello"))
           [("t0", sample.turn "ollama" "hi");
            ("t1", sample.turn "gpt-nope" "again")]).2.
Proof.
  apply (socket_session_as_requests (sample.serving (sample.replying "hello"))
           [("t0", sample.turn "ollama" "hi");
            ("t1", sample.turn "gpt-nope" "again")] sample.open).
  - constructor.
  - intros key p Hp. unfold sample.serving in Hp. simpl in Hp.
    apply lookup_singleton_Some in Hp as [_ <-]. intros messages model.
    reflexivity.
Defined.

(** X12: when a write of a content or done frame fails, the socket binding
    gives up the turn at once: the frames written before the failure stay
    written, the chunk whose frame failed is not accumulated, the chunks
    after it are not read, and the session store is left as it was, even
    when the failed frame carried the done marker. *)
Theorem socket_stops_at_failed_write (key : string) (texts : list string)
    (chunk : webui.StreamChunk) (rest : list webui.StreamChunk) (acc : string)
    (sm : session.SessionManager) (conn : webui.Conn) (err : error)
    (errs : list (option error)) :
  webui.StreamChunk_Error chunk = None →
  webui.writeErrs conn = replicate (length texts) None ++ Some err :: errs →
  webui.socketLoop key (map contentChunk texts ++ chunk :: rest) acc sm conn =
    (sm, {| webui.writeErrs := errs;
            webui.written := webui.written conn ++ map contentFragment texts |}).
Proof.
  intros Hchunk. revert acc conn.
  induction texts as [|t texts IH]; intros acc [writes written]; simpl;
    intros ->.
  - rewrite Hchunk. unfold webui.WriteJSON. simpl. by rewrite app_nil_r.
  - unfold webui.WriteJSON at 1. simpl.
    fold (contentFragment t). rewrite IH by done.
    simpl. by rewrite <- app_assoc.
Qed.

Lemma socket_stops_at_failed_write_witness :
  webui.socketLoop "s1" (map contentChunk ["par"] ++ doneChunk "" :: []) ""
    (session.NewSessionManager ∅ true)
    {| webui.writeErrs := [None; Some (errorString "write: broken pipe")];
       webui.written := [] |} =
    (session.NewSessionManager ∅ true,
     {| webui.writeErrs := [];
        webui.written := [] ++ map contentFragment ["par"] |}).
Proof.
  apply (socket_stops_at_failed_write "s1" ["par"] (doneChunk "") [] ""
           (session.NewSessionManager ∅ true)
           {| webui.writeErrs := [None; Some (errorString "write: broken pipe")];
              webui.written := [] |}
           (errorString "write: broken pipe") []).
  - reflexivity.
  - reflexivity.
Defined.

(** ** Model listing *)

(** X13: [handleModels] answers 404 exactly when the query names a provider,
    other than [all], that is not registered.  Otherwise every entry of its
    answer names a registered provider and holds the models this provider
    lists, or the single model [default] when the listing fails; there is
    one entry, for the provider named, or, when the query is empty or
    [all], one entry for each registered provider. *)
Theorem handleModels_answer (g : webui.Globals) (query : string) :
  match webui.handleModels g query with
  | webui.ModelsError msg code =>
      msg = "Provider not found" ∧ code = 404 ∧
      query ≠ "" ∧ query ≠ "all" ∧ webui.getProvider g query = None
  | webui.ModelsJSON result =>
      Forall (λ entry,
                ∃ p, webui.getProvider g (webui.ModelsResponse_Provider entry) =
                       Some p ∧
                     webui.ModelsResponse_Models entry = reportedModels p) result ∧
      map webui.ModelsResponse_Provider result =
        (if decide (query = "" ∨ query = "all")
         then webui.getAvailableProviders g else [query])
  end.
Proof.
  unfold webui.handleModels.
  destruct (decide (query = "")) as [->|Hquery]; simpl.
  - split.
    + apply Forall_forall. intros entry ([name p] & -> & Hin)%list_elem_of_fmap.
      apply elem_of_map_to_list in Hin. by exists p.
    + unfold webui.getAvailableProviders. rewrite <- list_fmap_compose.
      apply list_fmap_ext. by intros _ [name p] _.
  - destruct (decide (query = "all")) as [->|Hall]; simpl.
    + split.
      * apply Forall_forall.
        intros entry ([name p] & -> & Hin)%list_elem_of_fmap.
        apply elem_of_map_to_list in Hin. by exists p.
      * unfold webui.getAvailableProviders. rewrite <- list_fmap_compose.
        apply list_fmap_ext. by intros _ [name p] _.
    + destruct (webui.getProvider g query) as [p|] eqn:Hp; simpl.
      * split; [|by rewrite decide_False by (intros [?|?]; done)].
        constructor; [|constructor]. by exists p.
      * done.
Qed.

Lemma handleModels_answer_witness :
  webui.handleModels (sample.serving (sample.replying "hello")) "ollama" =
    webui.ModelsJSON
      [ {| webui.ModelsResponse_Provider := "ollama";
           webui.ModelsResponse_Models := ["llama3.2"] |} ] ∧
  webui.handleModels (sample.serving (sample.replying "hello")) "gpt-nope" =
    webui.ModelsError "Provider not found" 404.
Proof.
  pose proof (handleModels_answer (sample.serving (sample.replying "hello"))
                "gpt-nope") as Hunknown.
  split; [reflexivity|].
  destruct (webui.handleModels (sample.serving (sample.replying "hello"))
              "gpt-nope") as [msg code|result] eqn:Hreply.
  - destruct Hunknown as (-> & -> & _). reflexivity.
  - discriminate Hreply.
Defined.


(** ** The browser client *)

Lemma append_nil_r (s : string) : s +:+ "" = s.
Proof.
  induction s as [|a s IH]; [reflexivity|]. by rewrite append_cons, IH.
Qed.

Lemma split_nonempty (s : string) : app.split s ≠ [].
Proof.
  destruct s as [|c s]; simpl; [done|].
  destruct (Ascii.eqb c app.LF); [done|]. by destruct (app.split s).
Qed.

Lemma split_lines_single (s : string) :
  Forall (λ line, app.split line = [line]) (app.split s).
Proof.
  induction s as [|c s IH]; simpl.
  - by repeat constructor.
  - destruct (Ascii.eqb c app.LF) eqn:Hc.
    + by constructor.
    + destruct (app.split s) as [|line lines]; simpl.
      * repeat constructor. simpl. by rewrite Hc.
      * apply Forall_cons in IH as [Hline Hlines]. constructor; [|done].
        simpl. by rewrite Hc, Hline.
Qed.

Lemma split_app (a b : string) (first : string) (others : list string) :
  app.split b = first :: others →
  app.split (a +:+ b) =
    removelast (app.split a) ++
      (default "" (last (app.split a)) +:+ first) :: others.
Proof.
  intros Hb. induction a as [|c a IH].
  - by rewrite append_nil_l, Hb.
  - rewrite append_cons. simpl. rewrite IH.
    pose proof (split_nonempty a) as Hne.
    destruct (Ascii.eqb c app.LF).
    + destruct (app.split a) as [|x [|y rest]]; done.
    + destruct (app.split a) as [|x [|y rest]]; done.
Qed.

Lemma removelast_snoc_split (lines : list string) (more : list string) :
  more ≠ [] → removelast (lines ++ more) = lines ++ removelast more.
Proof.
  intros Hmore. induction lines as [|l lines IH]; simpl; [done|].
  rewrite IH. by destruct (lines ++ more) eqn:Happ;
    [apply app_eq_nil in Happ as [_ ?]|].
Qed.

Lemma readLoop_lines (JSON_parse : string → option app.Data)
    (onData : app.Data → app.Reading → app.Reading) (values : list string)
    (buffer : string) (st : app.Reading) :
  app.split buffer = [buffer] →
  app.readLoop JSON_parse onData values buffer st =
    foldl (app.onLine JSON_parse onData) st
      (removelast (app.split (buffer +:+ joined values))).
Proof.
  revert buffer st. induction values as [|value values IH];
    intros buffer st Hbuffer; simpl.
  - unfold joined. simpl. by rewrite append_nil_r, Hbuffer.
  - pose proof (split_lines_single (buffer +:+ value)) as Hsingle.
    pose proof (split_nonempty (buffer +:+ value)) as Hne.
    destruct (app.split (joined values)) as [|first others] eqn:Hrest.
    { by apply split_nonempty in Hrest. }
    assert (app.split (default "" (last (app.split (buffer +:+ value)))) =
            [default "" (last (app.split (buffer +:+ value)))]) as Hlast.
    { destruct (last (app.split (buffer +:+ value))) as [l|] eqn:Hl; [|done].
      apply last_Some_elem_of in Hl.
      by apply (proj1 (Forall_forall _ _) Hsingle). }
    rewrite IH by done.
    change (joined (value :: values)) with (value +:+ joined values).
    rewrite <- append_assoc.
    rewrite (split_app (buffer +:+ value) _ first others Hrest).
    rewrite (split_app (default "" (last (app.split (buffer +:+ value)))) _
               first others Hrest).
    rewrite Hlast. simpl.
    rewrite removelast_snoc_split by done. by rewrite foldl_app.
Qed.

Lemma onLine_events (JSON_parse : string → option app.Data)
    (onData : app.Data → app.Reading → app.Reading) (lines : list string)
    (st : app.Reading) :
  foldl (app.onLine JSON_parse onData) st lines =
    foldl (λ st data, onData data st) st (eventsOf JSON_parse lines).
Proof.
  revert st. induction lines as [|line lines IH]; intros st; [done|].
  cbn [foldl]. rewrite IH. unfold eventsOf, app.onLine. cbn [omap list_omap].
  destruct (app.startsWith line "data: "); [|done].
  by destruct (JSON_parse (app.slice 6 line)).
Qed.

(** X14: the lines the client handles are the complete lines of the
    concatenation of the values its reader delivers, in order and each once,
    however the body is cut into values; the text after the last line feed
    is never handled. *)
Theorem client_lines_independent_of_chunking
    (JSON_parse : string → option app.Data)
    (onData : app.Data → app.Reading → app.Reading) (values : list string)
    (st : app.Reading) :
  app.readLoop JSON_parse onData values "" st =
    foldl (app.onLine JSON_parse onData) st (completeLines values) ∧
  (∀ values', joined values' = joined values →
     app.readLoop JSON_parse onData values' "" st =
     app.readLoop JSON_parse onData values "" st).
Proof.
  assert (∀ vs, app.readLoop JSON_parse onData vs "" st =
                foldl (app.onLine JSON_parse onData) st (completeLines vs))
    as Hlines.
  { intros vs. rewrite readLoop_lines by done. by rewrite append_nil_l. }
  split; [apply Hlines|].
  intros values' Hjoined. rewrite !Hlines. unfold completeLines.
  by rewrite Hjoined.
Qed.


Lemma readLoop_complete (JSON_parse : string → option app.Data)
    (onData : app.Data → app.Reading → app.Reading) (values : list string)
    (st : app.Reading) :
  app.readLoop JSON_parse onData values "" st =
    foldl (app.onLine JSON_parse onData) st (completeLines values).
Proof. rewrite readLoop_lines by done. by rewrite append_nil_l. Qed.

Lemma client_lines_independent_of_chunking_witness :
  app.readLoop (λ _, Some (contentEvent "x")) app.streamData
    [terminated "data: a" +:+ "da"; terminated "ta: b"] ""
    {| app.fullResponse := ""; app.pushed := [] |} =
  app.readLoop (λ _, Some (contentEvent "x")) app.streamData
    [terminated "data: a" +:+ terminated "data: b"] ""
    {| app.fullResponse := ""; app.pushed := [] |}.
Proof.
  apply (proj2 (client_lines_independent_of_chunking
                  (λ _, Some (contentEvent "x")) app.streamData
                  [terminated "data: a" +:+ terminated "data: b"]
                  {| app.fullResponse := ""; app.pushed := [] |})).
  reflexivity.
Defined.

Lemma streamData_contents (texts : list string) (st : app.Reading) :
  foldl (λ st data, app.streamData data st) st (map contentEvent texts) =
    {| app.fullResponse := app.fullResponse st +:+ joined texts;
       app.pushed := app.pushed st |}.
Proof.
  revert st. induction texts as [|t texts IH]; intros [full pushed]; simpl.
  - unfold joined. simpl. by rewrite append_nil_r.
  - rewrite IH. unfold app.streamData, app.truthy. simpl.
    destruct (bool_decide (t = "")) eqn:Ht; simpl.
    + apply bool_decide_eq_true in Ht as ->. by rewrite append_nil_l.
    + by rewrite append_assoc.
Qed.

Lemma nonStreamData_streamData (data : app.Data) (st : app.Reading) :
  app.nonStreamData data st = app.streamData data st.
Proof. reflexivity. Qed.

Lemma nonStreamData_contents (texts : list string) (st : app.Reading) :
  foldl (λ st data, app.nonStreamData data st) st (map contentEvent texts) =
    {| app.fullResponse := app.fullResponse st +:+ joined texts;
       app.pushed := app.pushed st |}.
Proof. apply streamData_contents. Qed.

Lemma truthy_nonempty (s : string) : app.truthy s = true ↔ s ≠ "".
Proof.
  unfold app.truthy. rewrite negb_true_iff, bool_decide_eq_false. done.
Qed.

(** X15: when [fetch] delivers a response that is [ok] and whose body is
    read to its end, and the events of the body are content events and then
    one done event, no error is thrown; [streamResponse] records the
    assistant Message twice when the accumulated text is not empty - once on
    the done event and once more after the loop - and once, with empty
    content, when it is empty; [nonStreamResponse] records it exactly once
    in both cases. *)
Theorem client_records_answer (JSON_parse : string → option app.Data)
    (fetch : app.ChatBody → Result app.Response) (this : app.PicoClawApp)
    (provider model content systemPrompt : string) (response : app.Response)
    (texts : list string) (last : string) :
  let full := joined texts +:+ last in
  fetch (app.chatBody this provider model content systemPrompt) = Ok response →
  app.ok response = true →
  app.failure response = None →
  eventsOf JSON_parse (completeLines (app.body response)) =
    map contentEvent texts ++ [doneEvent last] →
  app.streamResponse JSON_parse fetch this provider model content systemPrompt =
    ({| app.messages :=
          app.messages this ++ [assistantSays full] ++
            (if decide (full = "") then [] else [assistantSays full]);
        app.sessionKey := app.sessionKey this |}, None) ∧
  app.nonStreamResponse JSON_parse fetch this provider model content
    systemPrompt =
    ({| app.messages := app.messages this ++ [assistantSays full];
        app.sessionKey := app.sessionKey this |}, None).
Proof.
  intros full Hfetch Hok Hread Hevents.
  assert (∀ st,
            foldl (λ st data, app.streamData data st) st
              (map contentEvent texts ++ [doneEvent last]) =
            {| app.fullResponse := app.fullResponse st +:+ full;
               app.pushed :=
                 app.pushed st ++ [assistantSays (app.fullResponse st +:+ full)] |})
    as Hfold.
  { intros st. rewrite foldl_app, streamData_contents. simpl.
    unfold app.streamData, app.truthy, full. simpl.
    destruct (bool_decide (last = "")) eqn:Hlast; simpl.
    - apply bool_decide_eq_true in Hlast as ->.
      by rewrite !append_nil_r.
    - by rewrite !append_assoc. }
  split.
  - unfold app.streamResponse. rewrite Hfetch, Hok, Hread. simpl.
    rewrite (readLoop_complete JSON_parse app.streamData (app.body response)).
    rewrite onLine_events, Hevents, Hfold. simpl.
    rewrite append_nil_l. unfold app.truthy.
    destruct (decide (full = "")) as [Hfull|Hfull].
    + by rewrite bool_decide_eq_true_2.
    + rewrite bool_decide_eq_false_2 by done. simpl.
      by rewrite <- app_assoc.
  - unfold app.nonStreamResponse. rewrite Hfetch, Hok, Hread. simpl.
    rewrite (readLoop_complete JSON_parse app.nonStreamData
               (app.body response)).
    rewrite onLine_events, Hevents.
    rewrite (Hfold _). simpl. rewrite append_nil_l.
    rewrite (bool_decide_eq_true_2
               (Exists (λ m, app.Message_content m = full)
                  (app.messages this ++ [assistantSays full]))).
    + by rewrite andb_false_r.
    + apply Exists_app. right. by constructor.
Qed.

Lemma client_records_answer_witness :
  app.streamResponse toyParse
    (answered [terminated "data: c:hel" +:+ terminated "" +:+ "data: c";
               terminated ":lo" +:+ terminated "" +:+ terminated "data: d:" +:+
                 terminated ""])
    freshApp "ollama" "llama3.2" "hi" "" =
    ({| app.messages := [assistantSays "hello"; assistantSays "hello"];
        app.sessionKey := "webui:1" |}, None) ∧
  app.nonStreamResponse toyParse
    (answered [terminated "data: c:hel" +:+ terminated "" +:+ "data: c";
               terminated ":lo" +:+ terminated "" +:+ terminated "data: d:" +:+
                 terminated ""])
    freshApp "ollama" "llama3.2" "hi" "" =
    ({| app.messages := [assistantSays "hello"];
        app.sessionKey := "webui:1" |}, None).
Proof.
  apply (client_records_answer toyParse
           (answered [terminated "data: c:hel" +:+ terminated "" +:+ "data: c";
                      terminated ":lo" +:+ terminated "" +:+
                        terminated "data: d:" +:+ terminated ""])
           freshApp "ollama" "llama3.2" "hi" ""
           {| app.ok := true; app.status := 200;
              app.body :=
                [terminated "data: c:hel" +:+ terminated "" +:+ "data: c";
                 terminated ":lo" +:+ terminated "" +:+
                   terminated "data: d:" +:+ terminated ""];
              app.failure := None |}
           ["hel"; "lo"] "").
  - reflexivity.
  - reflexivity.
  - reflexivity.
  - reflexivity.
Defined.

(** X16: an event with an error does not make the call fail and changes
    nothing: when [fetch] delivers a response that is [ok] and whose body is
    read to its end, and the events of the body are content events followed
    by an event with an error, both functions return normally;
    [streamResponse] records the text accumulated so far as an assistant
    Message when it is not empty, and [nonStreamResponse] does so unless a
    recorded Message already has that very content. *)
Theorem client_passes_over_errors (JSON_parse : string → option app.Data)
    (fetch : app.ChatBody → Result app.Response) (this : app.PicoClawApp)
    (provider model content systemPrompt : string) (response : app.Response)
    (texts : list string) (bad : app.Data) :
  fetch (app.chatBody this provider model content systemPrompt) = Ok response →
  app.ok response = true →
  app.failure response = None →
  app.Data_error bad ≠ "" →
  eventsOf JSON_parse (completeLines (app.body response)) =
    map contentEvent texts ++ [bad] →
  app.streamResponse JSON_parse fetch this provider model content systemPrompt =
    ({| app.messages :=
          app.messages this ++
            (if decide (joined texts = "") then []
             else [assistantSays (joined texts)]);
        app.sessionKey := app.sessionKey this |}, None) ∧
  app.nonStreamResponse JSON_parse fetch this provider model content
    systemPrompt =
    ({| app.messages :=
          app.messages this ++
            (if decide (joined texts = "" ∨
                        Exists (λ m, app.Message_content m = joined texts)
                          (app.messages this))
             then [] else [assistantSays (joined texts)]);
        app.sessionKey := app.sessionKey this |}, None).
Proof.
  intros Hfetch Hok Hread Hbad Hevents.
  assert (∀ st,
            foldl (λ st data, app.streamData data st) st
              (map contentEvent texts ++ [bad]) =
            {| app.fullResponse := app.fullResponse st +:+ joined texts;
               app.pushed := app.pushed st |})
    as Hfold.
  { intros st. rewrite foldl_app, streamData_contents. simpl.
    unfold app.streamData.
    by rewrite (proj2 (truthy_nonempty (app.Data_error bad)) Hbad). }
  split.
  - unfold app.streamResponse. rewrite Hfetch, Hok, Hread. simpl.
    rewrite (readLoop_complete JSON_parse app.streamData (app.body response)).
    rewrite onLine_events, Hevents, Hfold. simpl. rewrite append_nil_l.
    unfold app.truthy.
    destruct (decide (joined texts = "")) as [Hfull|Hfull].
    + rewrite bool_decide_eq_true_2 by done. simpl. by rewrite app_nil_r.
    + by rewrite bool_decide_eq_false_2 by done.
  - unfold app.nonStreamResponse. rewrite Hfetch, Hok, Hread. simpl.
    rewrite (readLoop_complete JSON_parse app.nonStreamData
               (app.body response)).
    rewrite onLine_events, Hevents.
    rewrite (Hfold _). simpl. rewrite append_nil_l. unfold app.truthy.
    destruct (decide (joined texts = "" ∨ _)) as [[Hfull|Hseen]|Hnew].
    + rewrite bool_decide_eq_true_2 by done. simpl. by rewrite app_nil_r.
    + rewrite (bool_decide_eq_true_2 (Exists _ _)) by done.
      rewrite andb_false_r. by rewrite app_nil_r.
    + rewrite bool_decide_eq_false_2 by (intros ?; apply Hnew; by left).
      rewrite (bool_decide_eq_false_2 (Exists _ _))
        by (intros ?; apply Hnew; by right).
      done.
Qed.

Lemma client_passes_over_errors_witness :
  app.streamResponse toyParse
    (answered [terminated "data: c:par" +:+ terminated "" +:+
                 terminated "data: e:decode error" +:+ terminated ""])
    freshApp "ollama" "llama3.2" "hi" "" =
    ({| app.messages := [] ++ [assistantSays "par"];
        app.sessionKey := "webui:1" |}, None).
Proof.
  apply (proj1 (client_passes_over_errors toyParse
                  (answered [terminated "data: c:par" +:+ terminated "" +:+
                               terminated "data: e:decode error" +:+
                               terminated ""])
                  freshApp "ollama" "llama3.2" "hi" ""
                  {| app.ok := true; app.status := 200;
                     app.body :=
                       [terminated "data: c:par" +:+ terminated "" +:+
                          terminated "data: e:decode error" +:+ terminated ""];
                     app.failure := None |}
                  ["par"]
                  {| app.Data_error := "decode error"; app.Data_content := "";
                     app.Data_done := false |}
                  eq_refl eq_refl eq_refl ltac:(discriminate) eq_refl)).
Defined.

Lemma streamData_appends (data : app.Data) (st : app.Reading) :
  ∃ added,
    app.pushed (app.streamData data st) = app.pushed st ++ added ∧
    Forall (λ m, app.Message_role m = "assistant") added.
Proof.
  unfold app.streamData.
  destruct (app.truthy (app.Data_error data)).
  { exists []. by rewrite app_nil_r. }
  destruct (app.truthy (app.Data_content data)), (app.Data_done data); simpl;
    try (exists []; by rewrite app_nil_r);
    eexists [_]; split; try reflexivity; by repeat constructor.
Qed.

Lemma readLoop_appends (JSON_parse : string → option app.Data)
    (values : list string) (st : app.Reading) :
  ∃ added,
    app.pushed (app.readLoop JSON_parse app.streamData values "" st) =
      app.pushed st ++ added ∧
    Forall (λ m, app.Message_role m = "assistant") added.
Proof.
  rewrite readLoop_complete, onLine_events.
  generalize (eventsOf JSON_parse (completeLines values)). intros events.
  revert st. induction events as [|data events IH]; intros st; simpl.
  - exists []. by rewrite app_nil_r.
  - destruct (IH (app.streamData data st)) as (added' & -> & Hadded').
    destruct (streamData_appends data st) as (added & -> & Hadded).
    exists (added ++ added'). split; [by rewrite app_assoc|].
    by apply Forall_app.
Qed.

(** X17: the promise of either function is rejected in three cases and no
    other: [fetch] is rejected, with its error; the response is not [ok],
    with the error [HTTP error! status: <status>]; a read of the body is
    rejected, with its error.  In the first two cases nothing is recorded.
    In every case the session key is kept, the Messages recorded so far are
    kept in order, and what is added after them are assistant Messages only:
    the user's message, which goes out in the request, is never recorded. *)
Theorem client_records_assistant_only (JSON_parse : string → option app.Data)
    (fetch : app.ChatBody → Result app.Response) (this : app.PicoClawApp)
    (provider model content systemPrompt : string) :
  Forall
    (λ outcome : app.PicoClawApp * option error,
       app.sessionKey outcome.1 = app.sessionKey this ∧
       (∃ added,
          app.messages outcome.1 = app.messages this ++ added ∧
          Forall (λ m, app.Message_role m = "assistant") added) ∧
       match fetch (app.chatBody this provider model content systemPrompt) with
       | Err err => outcome = (this, Some err)
       | Ok response =>
           if app.ok response then outcome.2 = app.failure response
           else
             outcome =
               (this,
                Some (errorString
                        ("HTTP error! status: " +:+
                         pretty (app.status response))))
       end)
    [app.streamResponse JSON_parse fetch this provider model content
       systemPrompt;
     app.nonStreamResponse JSON_parse fetch this provider model content
       systemPrompt] ∧
  app.ChatBody_messages
    (app.chatBody this provider model content systemPrompt) =
    app.messages this ++
      [ {| app.Message_role := "user"; app.Message_content := content |} ].
Proof.
  split; [|done].
  assert (∃ added : list app.Message,
            app.messages this = app.messages this ++ added ∧
            Forall (λ m, app.Message_role m = "assistant") added) as Hkept.
  { exists []. by rewrite app_nil_r. }
  unfold app.streamResponse, app.nonStreamResponse.
  destruct (fetch _) as [response|err]; [|by repeat constructor].
  destruct (app.ok response); simpl; [|by repeat constructor].
  destruct (readLoop_appends JSON_parse (app.body response)
              {| app.fullResponse := ""; app.pushed := app.messages this |})
    as (added & Hpushed & Hadded). simpl in Hpushed.
  change app.nonStreamData with app.streamData.
  destruct (app.failure response) as [err|]; simpl.
  { repeat constructor; simpl; by exists added. }
  constructor; [|constructor; [|constructor]].
  - split; [done|]. split; [|done]. simpl.
    destruct (app.truthy _).
    + eexists (added ++ [_]).
      rewrite Hpushed. split; [by rewrite app_assoc|].
      apply Forall_app. split; [done|]. by repeat constructor.
    + by exists added.
  - split; [done|]. split; [|done]. simpl.
    destruct (_ && _).
    + eexists (added ++ [_]).
      rewrite Hpushed. split; [by rewrite app_assoc|].
      apply Forall_app. split; [done|]. by repeat constructor.
    + by exists added.
Qed.

(** ** Model listing by the providers *)

(** X18: [Provider.ListModels] returns a list of models exactly when the URL
    is accepted and the server answers [GET <base>/api/tags] with status 200
    and a body that decodes, and the list is then the names decoded, in
    order; it sends at most one request, and none when the URL is rejected.
    [OllamaProvider.ListModels] of a provider with the same base URL and the
    same client does the same, request for request. *)
Theorem ListModels_outcome (url_error : string → option error)
    (p : ollama.Provider) (po : providers.OllamaProvider) (c : Context)
    (models : list string) :
  ((ollama.ListModels url_error p c).2 = Ok models ↔
   url_error (ollama.BaseURL (ollama.config p) +:+ "/api/tags") = None ∧
   ∃ resp,
     http.Transport (ollama.httpClient p) (tagsGet p c) = Ok resp ∧
     http.StatusCode resp = 200 ∧
     http.Tags (http.RespBody resp) = Ok models) ∧
  (ollama.ListModels url_error p c).1 =
    match url_error (ollama.BaseURL (ollama.config p) +:+ "/api/tags") with
    | Some _ => []
    | None => [tagsGet p c]
    end ∧
  (providers.BaseURL (providers.config po) = ollama.BaseURL (ollama.config p) →
   providers.httpClient po = ollama.httpClient p →
   providers.ListModels url_error po c = ollama.ListModels url_error p c).
Proof.
  split_and!.
  - unfold ollama.ListModels, http.NewRequestWithContext, tagsGet.
    destruct (url_error _) as [err|]; simpl.
    { split; [done|by intros [? _]]. }
    destruct (http.Transport _ _) as [resp|err]; simpl.
    2:{ split; [done|]. by intros (_ & ? & ? & _). }
    destruct (decide (http.StatusCode resp ≠ http.StatusOK)) as [Hne|Hok]; simpl.
    { split; [done|]. intros (_ & resp' & [= <-] & Hstatus & _).
      by destruct Hne. }
    apply dec_stable in Hok.
    destruct (http.Tags (http.RespBody resp)) as [ms|err] eqn:Htags; simpl.
    + split.
      * intros [= <-]. split; [done|]. by exists resp.
      * intros (_ & resp' & [= <-] & _ & Hms). congruence.
    + split; [done|]. intros (_ & resp' & [= <-] & _ & Hms). congruence.
  - unfold ollama.ListModels, http.NewRequestWithContext, tagsGet.
    destruct (url_error _) as [err|]; simpl; [done|].
    destruct (http.Transport _ _) as [resp|err]; simpl; [|done].
    destruct (decide _); simpl; [done|].
    by destruct (http.Tags _).
  - intros Hurl Hclient.
    unfold providers.ListModels, ollama.ListModels. by rewrite Hurl, Hclient.
Qed.

Lemma ListModels_outcome_witness :
  (ollama.ListModels sample.anyURL
     (sample.local (sample.answering
        {| http.StatusCode := 200;
           http.RespBody :=
             {| http.Bytes := ""; http.ChatValues := [];
                http.Tags := Ok ["llama3.2"; "mistral"] |} |}))
     Background).2 = Ok ["llama3.2"; "mistral"] ∧
  providers.ListModels sample.anyURL (sample.localOllama sample.unreachable)
    Background =
    ollama.ListModels sample.anyURL (sample.local sample.unreachable) Background.
Proof.
  split.
  - apply (proj1 (ListModels_outcome sample.anyURL
                    (sample.local (sample.answering
                       {| http.StatusCode := 200;
                          http.RespBody :=
                            {| http.Bytes := ""; http.ChatValues := [];
                               http.Tags := Ok ["llama3.2"; "mistral"] |} |}))
                    (sample.localOllama sample.unreachable) Background
                    ["llama3.2"; "mistral"])).
    split; [reflexivity|]. eexists. by split_and!.
  - apply (proj2 (proj2 (ListModels_outcome sample.anyURL
                           (sample.local sample.unreachable)
                           (sample.localOllama sample.unreachable) Background
                           []))).
    + reflexivity.
    + reflexivity.
Defined.
